(** * Syma S107 infrared driver (syma_driver.c): model and verified properties

    The sketch drives an infrared LED with the pulse train of the Syma S107
    protocol and paces packets by a computed delay.  The model below follows
    the sketch function by function:

    - [int] is a signed integer of [int_bits] bits (16 on the ATmega boards,
      32 on the ARM boards); every [int] operation is written with its
      wrap-around ([wrap]);
    - [byte] is the standard library's [Byte.byte];
    - [float] is IEEE-754 binary32, computed with the standard library's
      [SpecFloat] (round to nearest even), and the conversion of a float to
      an [int] truncates toward zero;
    - the calls into the Arduino core ([digitalWrite], [delayMicroseconds],
      [delay], [Serial.write]) are recorded, in order, as [event]s;
    - the global [command], the [static] locals of [sendPacket] and the
      serial receive buffer make up the [machine] state that is threaded
      through the code by the monad [M];
    - a [while] loop takes a bound on its number of iterations (fuel) and
      answers [OutOfFuel] when the bound is too small. *)

From Stdlib Require Import ZArith List Lia Bool.
From Stdlib Require Import Strings.Byte.
From Stdlib Require Import Floats.SpecFloat.
Import ListNotations.
Open Scope Z_scope.

(** ** Machine integers *)

(** Two's complement reading of [x] on [w] bits. *)
Definition wrap (w x : Z) : Z := (x + 2 ^ (w - 1)) mod 2 ^ w - 2 ^ (w - 1).

Definition min_int (w : Z) : Z := - 2 ^ (w - 1).
Definition max_int (w : Z) : Z := 2 ^ (w - 1) - 1.

(** Conversion of an [int] to [unsigned long] (32 bits on every Arduino
    board), as done at the call [delay(sendPacket(...))]. *)
Definition to_unsigned_long (x : Z) : Z := x mod 2 ^ 32.

(** Value of a byte, and conversion of an [int] to [byte]. *)
Definition byte_val (b : byte) : Z := Z.of_N (Byte.to_N b).

Definition byte_of_int (x : Z) : byte :=
  match Byte.of_N (Z.to_N (x mod 256)) with
  | Some b => b
  | None => x00
  end.

(** ** binary32 floats *)

Definition prec : Z := 24.
Definition emax : Z := 128.

(** [(float) x] for an integer [x]. *)
Definition float_of_int (x : Z) : spec_float :=
  binary_normalize prec emax x 0 false.

Definition fdiv : spec_float -> spec_float -> spec_float := SFdiv prec emax.
Definition fsub : spec_float -> spec_float -> spec_float := SFsub prec emax.

(** Truncation toward zero; a NaN or an infinity has no integer value. *)
Definition trunc_float (f : spec_float) : option Z :=
  match f with
  | S754_zero _ => Some 0
  | S754_finite s m e =>
      let a := match e with
               | Z0 => Zpos m
               | Zpos _ => Z.shiftl (Zpos m) e
               | Zneg p => Z.shiftr (Zpos m) (Zpos p)
               end in
      Some (if s then - a else a)
  | S754_infinity _ => None
  | S754_nan => None
  end.

(** ** The sketch's constants *)

Definition LED : Z := 8.
Definition STATUS : Z := 13.

Definition YAW : Z := 0.
Definition PITCH : Z := 1.
Definition THROTTLE : Z := 2.
Definition TRIM : Z := 3.

Definition BYTES_IN_PACKET : Z := 4.
Definition BITS_IN_BYTE : Z := 8.

Definition PACKETS_PER_SECOND : Z := 10.
Definition MICROSECONDS_IN_A_SECOND : Z := 1000.

Definition ZERO_YAW : byte := x3f.
Definition ZERO_PITCH : byte := x3f.
Definition ZERO_THROTTLE : byte := x00.
Definition ZERO_TRIM : byte := x3f.

Definition CYCLES_FOR_HEADER : Z := 77.
Definition CYCLES_FOR_BIT : Z := 12.
Definition CYCLES_FOR_FOOTER : Z := 12.
Definition CYCLE_TIME : Z := 26.

Definition HEADER_DELAY : Z := 1998.
Definition ONE : Z := 688.
Definition ZERO : Z := 288.

Definition bit_masks : list Z := [1; 2; 4; 8; 16; 32; 64; 128].

Definition READY_TO_ACCEPT_ACK : Z := 129.

(** ** Observable events and machine state *)

Inductive level : Type := LOW | HIGH.

Inductive event : Type :=
| DigitalWrite (pin : Z) (v : level)
| DelayMicroseconds (us : Z)
| Delay (ms : Z)
| SerialWrite (b : Z).

(** An array of four bytes ([command] and [packet_bytes]). *)
Record byte4 : Type := mkByte4 { elt0 : byte; elt1 : byte; elt2 : byte; elt3 : byte }.

(** Reading and writing [a[i]]; an index outside 0..3 has no defined result. *)
Definition get4 (a : byte4) (i : Z) : option byte :=
  match i with
  | 0 => Some (elt0 a)
  | 1 => Some (elt1 a)
  | 2 => Some (elt2 a)
  | 3 => Some (elt3 a)
  | _ => None
  end.

Definition set4 (a : byte4) (i : Z) (b : byte) : option byte4 :=
  match i with
  | 0 => Some (mkByte4 b (elt1 a) (elt2 a) (elt3 a))
  | 1 => Some (mkByte4 (elt0 a) b (elt2 a) (elt3 a))
  | 2 => Some (mkByte4 (elt0 a) (elt1 a) b (elt3 a))
  | 3 => Some (mkByte4 (elt0 a) (elt1 a) (elt2 a) b)
  | _ => None
  end.

(** Reading [bit_masks[j]]. *)
Definition mask_at (j : Z) : option Z :=
  if j <? 0 then None else nth_error bit_masks (Z.to_nat j).

(** The [static] locals of [sendPacket]; they outlive the call. *)
Record statics : Type := mkStatics {
  current_byte_index : Z;
  current_bit_index : Z;
  ones : Z;
  zeroes : Z;
  packet_bytes : byte4
}.

Record machine : Type := mkMachine {
  command : byte4;          (* the global [command] *)
  sp : statics;             (* the statics of [sendPacket] *)
  serial_rx : list byte;    (* bytes received and not yet read *)
  output : list event       (* calls into the Arduino core, oldest first *)
}.

(** State of the sketch when [loop] is first entered. *)
Definition initial_machine : machine :=
  mkMachine (mkByte4 ZERO_YAW ZERO_PITCH ZERO_THROTTLE ZERO_TRIM)
            (mkStatics 0 0 0 0 (mkByte4 x00 x00 x00 x00))
            []
            [].

(** ** The monad of the sketch *)

Inductive outcome (A : Type) : Type :=
| Done (a : A) (m : machine)
| OutOfFuel
| Undefined.

Arguments Done {A} a m.
Arguments OutOfFuel {A}.
Arguments Undefined {A}.

Definition M (A : Type) : Type := machine -> outcome A.

Definition ret {A : Type} (a : A) : M A := fun m => Done a m.

Definition bind {A B : Type} (c : M A) (k : A -> M B) : M B :=
  fun m => match c m with
           | Done a m' => k a m'
           | OutOfFuel => OutOfFuel
           | Undefined => Undefined
           end.

Declare Scope sketch_scope.
Delimit Scope sketch_scope with sketch.
Notation "x <- c ;; k" := (bind c (fun x => k))
  (at level 61, c at next level, right associativity) : sketch_scope.
Notation "c ;; k" := (bind c (fun _ => k))
  (at level 61, right associativity) : sketch_scope.
Open Scope sketch_scope.

Definition lift_option {A : Type} (o : option A) : M A :=
  fun m => match o with
           | Some a => Done a m
           | None => Undefined
           end.

Definition set_sp (s : statics) (m : machine) : machine :=
  mkMachine (command m) s (serial_rx m) (output m).

Definition emit (evs : list event) (m : machine) : machine :=
  mkMachine (command m) (sp m) (serial_rx m) (output m ++ evs).

Definition get_statics : M statics := fun m => Done (sp m) m.
Definition put_statics (s : statics) : M unit := fun m => Done tt (set_sp s m).

Definition set_ones (v : Z) : M unit :=
  s <- get_statics ;;
  put_statics (mkStatics (current_byte_index s) (current_bit_index s) v (zeroes s) (packet_bytes s)).

Definition set_zeroes (v : Z) : M unit :=
  s <- get_statics ;;
  put_statics (mkStatics (current_byte_index s) (current_bit_index s) (ones s) v (packet_bytes s)).

Definition set_current_byte_index (v : Z) : M unit :=
  s <- get_statics ;;
  put_statics (mkStatics v (current_bit_index s) (ones s) (zeroes s) (packet_bytes s)).

Definition set_current_bit_index (v : Z) : M unit :=
  s <- get_statics ;;
  put_statics (mkStatics (current_byte_index s) v (ones s) (zeroes s) (packet_bytes s)).

Definition set_packet_byte (i : Z) (b : byte) : M unit :=
  s <- get_statics ;;
  a <- lift_option (set4 (packet_bytes s) i b) ;;
  put_statics (mkStatics (current_byte_index s) (current_bit_index s) (ones s) (zeroes s) a).

Definition get_command (i : Z) : M byte :=
  fun m => lift_option (get4 (command m) i) m.

Definition set_command (i : Z) (b : byte) : M unit :=
  fun m => match set4 (command m) i b with
           | Some a => Done tt (mkMachine a (sp m) (serial_rx m) (output m))
           | None => Undefined
           end.

(** *** The Arduino core *)

Definition digitalWrite (pin : Z) (v : level) : M unit :=
  fun m => Done tt (emit [DigitalWrite pin v] m).

Definition delayMicroseconds (us : Z) : M unit :=
  fun m => Done tt (emit [DelayMicroseconds us] m).

(** [delay] takes an [unsigned long]. *)
Definition delay (ms : Z) : M unit :=
  fun m => Done tt (emit [Delay (to_unsigned_long ms)] m).

Definition Serial_write (b : Z) : M unit :=
  fun m => Done tt (emit [SerialWrite b] m).

Definition Serial_available : M Z :=
  fun m => Done (Z.of_nat (length (serial_rx m))) m.

(** [Serial.read] answers the oldest byte, or -1 when there is none. *)
Definition Serial_read : M Z :=
  fun m => match serial_rx m with
           | [] => Done (-1) m
           | b :: rest => Done (byte_val b) (mkMachine (command m) (sp m) rest (output m))
           end.

(** [while(cond) body] *)
Fixpoint while (fuel : nat) (cond : machine -> bool) (body : M unit) : M unit :=
  fun m =>
    if cond m then
      match fuel with
      | O => OutOfFuel
      | S fuel' =>
          match body m with
          | Done _ m' => while fuel' cond body m'
          | OutOfFuel => OutOfFuel
          | Undefined => Undefined
          end
      end
    else Done tt m.

(** ** The sketch *)

Section Sketch.

(** Width of [int] on the board. *)
Variable int_bits : Z.

Definition int (x : Z) : Z := wrap int_bits x.

(** [void pulse(int cycles)] *)
Fixpoint pulse (fuel : nat) (cycles : Z) : M unit :=
  if cycles >? 0 then
    match fuel with
    | O => fun _ => OutOfFuel
    | S fuel' =>
        digitalWrite LED HIGH ;;
        delayMicroseconds 10 ;;
        digitalWrite LED LOW ;;
        delayMicroseconds 10 ;;
        pulse fuel' (int (cycles - 1))
    end
  else ret tt.

(** [void header()] *)
Definition header (fuel : nat) : M unit :=
  pulse fuel CYCLES_FOR_HEADER ;;
  delayMicroseconds HEADER_DELAY.

(** [void footer()] *)
Definition footer (fuel : nat) : M unit :=
  pulse fuel CYCLES_FOR_FOOTER.

(** [void one()] and [void zero()] *)
Definition one : M unit := delayMicroseconds ONE.
Definition zero : M unit := delayMicroseconds ZERO.

(** The arithmetic that ends [sendPacket] (from [int header_time] to the
    [return]), as a function of the two counters. *)
Definition header_time : Z := int (int (CYCLES_FOR_HEADER * CYCLE_TIME) + HEADER_DELAY).
Definition footer_time : Z := int (CYCLES_FOR_FOOTER * CYCLE_TIME).
Definition total_bit_start_time : Z :=
  int (int (int (CYCLES_FOR_BIT * CYCLE_TIME) * BITS_IN_BYTE) * BYTES_IN_PACKET).

Definition total_packet_time (n_ones n_zeroes : Z) : Z :=
  let ones_time := int (ONE * n_ones) in
  let zeroes_time := int (ZERO * n_zeroes) in
  int (int (int (int (header_time + footer_time) + total_bit_start_time) + ones_time) + zeroes_time).

(** The returned expression: the left operand is an integer division, the
    right one a float division; the difference is a float, converted to the
    [int] that the function returns.  A value that does not fit an [int] has
    no defined conversion. *)
Definition residual_of_total (total : Z) : option Z :=
  let period := int (Z.quot MICROSECONDS_IN_A_SECOND PACKETS_PER_SECOND) in
  let elapsed := fdiv (float_of_int total) (float_of_int MICROSECONDS_IN_A_SECOND) in
  match trunc_float (fsub (float_of_int period) elapsed) with
  | Some r => if (min_int int_bits <=? r) && (r <=? max_int int_bits) then Some r else None
  | None => None
  end.

Definition residualDelay (n_ones n_zeroes : Z) : option Z :=
  residual_of_total (total_packet_time n_ones n_zeroes).

(** The body of the [while] loop of [sendPacket]. *)
Definition send_bit (fuel : nat) : M unit :=
  pulse fuel CYCLES_FOR_BIT ;;
  s <- get_statics ;;
  b <- lift_option (get4 (packet_bytes s) (current_byte_index s)) ;;
  mask <- lift_option (mask_at (current_bit_index s)) ;;
  set_current_bit_index (int (current_bit_index s - 1)) ;;
  (if negb (Z.land (byte_val b) mask =? 0) then
     one ;;
     s1 <- get_statics ;;
     set_ones (int (ones s1 + 1))
   else
     zero ;;
     s1 <- get_statics ;;
     set_zeroes (int (zeroes s1 + 1))) ;;
  s2 <- get_statics ;;
  if current_bit_index s2 <? 0 then
    set_current_bit_index (int (BITS_IN_BYTE - 1)) ;;
    s3 <- get_statics ;;
    set_current_byte_index (int (current_byte_index s3 + 1))
  else ret tt.

(** [int sendPacket(byte yaw, byte pitch, byte throttle, byte trim)] *)
Definition sendPacket (fuel : nat) (yaw pitch throttle trim : byte) : M Z :=
  digitalWrite STATUS HIGH ;;
  set_ones 0 ;;
  set_zeroes 0 ;;
  set_packet_byte YAW yaw ;;
  set_packet_byte PITCH pitch ;;
  set_packet_byte THROTTLE throttle ;;
  set_packet_byte TRIM trim ;;
  set_current_byte_index 0 ;;
  set_current_bit_index (int (BITS_IN_BYTE - 1)) ;;
  header fuel ;;
  while fuel (fun m => current_byte_index (sp m) <? BYTES_IN_PACKET) (send_bit fuel) ;;
  footer fuel ;;
  digitalWrite STATUS LOW ;;
  s <- get_statics ;;
  lift_option (residualDelay (ones s) (zeroes s)).

(** [for(int i = 0; i < 4; i++) command[i] = Serial.read();] from [i] on. *)
Fixpoint read_command (fuel : nat) (i : Z) : M unit :=
  if i <? 4 then
    match fuel with
    | O => fun _ => OutOfFuel
    | S fuel' =>
        r <- Serial_read ;;
        set_command i (byte_of_int r) ;;
        read_command fuel' (int (i + 1))
    end
  else ret tt.

(** The serial-read step that opens an iteration of [loop]. *)
Definition pollUpdate (fuel : nat) : M unit :=
  n <- Serial_available ;;
  if n >=? BYTES_IN_PACKET then read_command fuel 0 else ret tt.

(** One iteration of the [while(1)] of [loop]. *)
Definition loop_iteration (fuel : nat) : M unit :=
  pollUpdate fuel ;;
  yaw <- get_command YAW ;;
  pitch <- get_command PITCH ;;
  throttle <- get_command THROTTLE ;;
  trim <- get_command TRIM ;;
  r <- sendPacket fuel yaw pitch throttle trim ;;
  delay r ;;
  Serial_write READY_TO_ACCEPT_ACK.

End Sketch.

(** ** The emitted signal, described *)

(** One carrier cycle on the LED pin, and a burst of [n] cycles. *)
Definition carrier_cycle : list event :=
  [DigitalWrite LED HIGH; DelayMicroseconds 10; DigitalWrite LED LOW; DelayMicroseconds 10].

Fixpoint carrier_burst (n : nat) : list event :=
  match n with
  | O => []
  | S k => carrier_cycle ++ carrier_burst k
  end.

(** A bit on the wire: the bit-start burst, then the low time of the bit. *)
Definition symbol (bit : bool) : list event :=
  carrier_burst 12 ++ [DelayMicroseconds (if bit then ONE else ZERO)].

(** The bits of a byte, most significant first. *)
Definition byte_bits (b : byte) : list bool :=
  map (Z.testbit (byte_val b)) [7; 6; 5; 4; 3; 2; 1; 0].

Definition packet_bits (yaw pitch throttle trim : byte) : list bool :=
  byte_bits yaw ++ byte_bits pitch ++ byte_bits throttle ++ byte_bits trim.

Definition count_bits (v : bool) (bits : list bool) : Z :=
  Z.of_nat (length (filter (Bool.eqb v) bits)).

Definition header_events : list event :=
  carrier_burst 77 ++ [DelayMicroseconds HEADER_DELAY].

Definition footer_events : list event := carrier_burst 12.

(** Everything [sendPacket] hands to the Arduino core for one command. *)
Definition packet_events (yaw pitch throttle trim : byte) : list event :=
  [DigitalWrite STATUS HIGH] ++ header_events
    ++ concat (map symbol (packet_bits yaw pitch throttle trim))
    ++ footer_events ++ [DigitalWrite STATUS LOW].

(** The statics that a call of [sendPacket] leaves behind. *)
Definition final_statics (yaw pitch throttle trim : byte) : statics :=
  let bits := packet_bits yaw pitch throttle trim in
  mkStatics 4 7 (count_bits true bits) (count_bits false bits)
            (mkByte4 yaw pitch throttle trim).

(** The packet time of the comment that heads the sketch, in microseconds,
    in unbounded arithmetic. *)
Definition exact_packet_time (n_ones n_zeroes : Z) : Z :=
  (77 * 26 + 1998) + 12 * 26 + 12 * 26 * 8 * 4 + 688 * n_ones + 288 * n_zeroes.

(** ** A receiver for the signal

    The receiver of the protocol as the protocol describes it: it looks at
    the LED pin only, expects the header burst and its low time, reads 32
    bits by the length of the low time that follows each bit-start burst,
    then expects the footer burst. *)

Definition level_eqb (a b : level) : bool :=
  match a, b with
  | LOW, LOW => true
  | HIGH, HIGH => true
  | _, _ => false
  end.

Definition event_eqb (a b : event) : bool :=
  match a, b with
  | DigitalWrite p v, DigitalWrite q u => (p =? q) && level_eqb v u
  | DelayMicroseconds x, DelayMicroseconds y => x =? y
  | Delay x, Delay y => x =? y
  | SerialWrite x, SerialWrite y => x =? y
  | _, _ => false
  end.

(** What reaches the receiver: the LED pin and the passing of time. *)
Definition on_air (e : event) : bool :=
  match e with
  | DigitalWrite pin _ => pin =? LED
  | DelayMicroseconds _ => true
  | Delay _ => true
  | SerialWrite _ => false
  end.

Fixpoint strip_prefix (pre evs : list event) : option (list event) :=
  match pre with
  | [] => Some evs
  | e :: pre' =>
      match evs with
      | e' :: evs' => if event_eqb e e' then strip_prefix pre' evs' else None
      | [] => None
      end
  end.

(** A low time within 100 us of 688 us reads as 1, within 100 us of 288 us
    as 0. *)
Definition classify (us : Z) : option bool :=
  if Z.abs (us - 688) <=? 100 then Some true
  else if Z.abs (us - 288) <=? 100 then Some false
  else None.

Definition read_bit (evs : list event) : option (bool * list event) :=
  match strip_prefix (carrier_burst 12) evs with
  | Some (DelayMicroseconds us :: rest) =>
      match classify us with
      | Some b => Some (b, rest)
      | None => None
      end
  | _ => None
  end.

(** Reads [n] bits into the accumulator [acc], most significant first. *)
Fixpoint read_bits (n : nat) (acc : Z) (evs : list event) : option (Z * list event) :=
  match n with
  | O => Some (acc, evs)
  | S k =>
      match read_bit evs with
      | Some (b, rest) => read_bits k (2 * acc + Z.b2z b) rest
      | None => None
      end
  end.

Definition read_byte (evs : list event) : option (byte * list event) :=
  match read_bits 8 0 evs with
  | Some (v, rest) => Some (byte_of_int v, rest)
  | None => None
  end.

Definition read_header (evs : list event) : option (list event) :=
  match strip_prefix (carrier_burst 77) evs with
  | Some (DelayMicroseconds us :: rest) =>
      if Z.abs (us - 1998) <=? 100 then Some rest else None
  | _ => None
  end.

Definition decode (evs : list event) : option byte4 :=
  match read_header (filter on_air evs) with
  | Some e0 =>
      match read_byte e0 with
      | Some (yaw, e1) =>
          match read_byte e1 with
          | Some (pitch, e2) =>
              match read_byte e2 with
              | Some (throttle, e3) =>
                  match read_byte e3 with
                  | Some (trim, e4) =>
                      match strip_prefix (carrier_burst 12) e4 with
                      | Some [] => Some (mkByte4 yaw pitch throttle trim)
                      | _ => None
                      end
                  | None => None
                  end
              | None => None
              end
          | None => None
          end
      | None => None
      end
  | None => None
  end.

(** ** Definitions used in the proofs *)

(** The condition of the loop of [sendPacket]. *)
Definition more_bytes (m : machine) : bool :=
  current_byte_index (sp m) <? BYTES_IN_PACKET.

(** The bits [k], [k-1], ..., 0 of [v]. *)
Fixpoint bits_down (v : Z) (k : nat) : list bool :=
  Z.testbit v (Z.of_nat k) ::
  match k with
  | O => []
  | S k' => bits_down v k'
  end.

(** The state after the bit [k] of the byte [i] has been sent. *)
Definition after_bit (m : machine) (bit : bool) (k : nat) : machine :=
  let s := sp m in
  mkMachine (command m)
    (mkStatics (match k with O => current_byte_index s + 1 | S _ => current_byte_index s end)
               (match k with O => 7 | S k' => Z.of_nat k' end)
               (ones s + Z.b2z bit)
               (zeroes s + Z.b2z (negb bit))
               (packet_bytes s))
    (serial_rx m)
    (output m ++ symbol bit).

(** The state once the rest of the current byte has been sent as [bits]. *)
Definition after_byte (m : machine) (bits : list bool) : machine :=
  let s := sp m in
  mkMachine (command m)
    (mkStatics (current_byte_index s + 1) 7
               (ones s + count_bits true bits)
               (zeroes s + count_bits false bits)
               (packet_bytes s))
    (serial_rx m)
    (output m ++ concat (map symbol bits)).

(** The float expression of the [return], the period being 100. *)
Definition residual_float (total : Z) : option Z :=
  trunc_float (fsub (float_of_int 100) (fdiv (float_of_int total) (float_of_int 1000))).

(** [p] holds on the [n] integers from [lo] on. *)
Fixpoint holds_from (n : nat) (lo : Z) (p : Z -> bool) : bool :=
  match n with
  | O => true
  | S k => p lo && holds_from k (lo + 1) p
  end.

(** The float expression agrees at [t] with the quotient rounded toward zero. *)
Definition residual_agrees (t : Z) : bool :=
  match residual_float t with
  | Some r => r =? Z.quot (100000 - t) 1000
  | None => false
  end.

(** The state that [pollUpdate] leaves. *)
Definition polled (m : machine) : machine :=
  match serial_rx m with
  | yaw :: pitch :: throttle :: trim :: rest =>
      mkMachine (mkByte4 yaw pitch throttle trim) (sp m) rest (output m)
  | _ => m
  end.

(** ** The loop of the sketch, pass after pass *)

(** [void loop()]: its [while(1)], given fuel for [passes] iterations. *)
Definition loop (int_bits : Z) (passes fuel : nat) : M unit :=
  while passes (fun _ => true) (loop_iteration int_bits fuel).

(** The first [k] iterations of that [while(1)]. *)
Fixpoint loop_passes (int_bits : Z) (k fuel : nat) : M unit :=
  match k with
  | O => ret tt
  | S k' => loop_iteration int_bits fuel ;; loop_passes int_bits k' fuel
  end.

(** The four bytes of a command as they travel on the serial line. *)
Definition to_bytes (c : byte4) : list byte := [elt0 c; elt1 c; elt2 c; elt3 c].

Definition command_bits (c : byte4) : list bool :=
  packet_bits (elt0 c) (elt1 c) (elt2 c) (elt3 c).

(** The number of one bits of a command. *)
Definition ones_of (c : byte4) : Z := count_bits true (command_bits c).

(** The delay that follows the packet of the command [c]. *)
Definition delay_for (int_bits : Z) (c : byte4) : Z :=
  Z.quot (100000 - total_packet_time int_bits (count_bits true (command_bits c))
                                     (count_bits false (command_bits c))) 1000.

(** What one pass of [loop] hands to the Arduino core for the command [c]. *)
Definition pass_events (int_bits : Z) (c : byte4) : list event :=
  packet_events (elt0 c) (elt1 c) (elt2 c) (elt3 c)
    ++ [Delay (delay_for int_bits c); SerialWrite READY_TO_ACCEPT_ACK].

(** The state that one pass of [loop] leaves. *)
Definition after_pass (int_bits : Z) (m : machine) : machine :=
  let c := command (polled m) in
  mkMachine c (final_statics (elt0 c) (elt1 c) (elt2 c) (elt3 c))
            (serial_rx (polled m)) (output m ++ pass_events int_bits c).

Fixpoint after_passes (int_bits : Z) (k : nat) (m : machine) : machine :=
  match k with
  | O => m
  | S k' => after_passes int_bits k' (after_pass int_bits m)
  end.

(** ** Measures of the signal *)

(** Time taken on the LED pin, in microseconds: the sketch's comments give
    3 us to a [digitalWrite] and the delays give their own length. *)
Definition air_time (e : event) : Z :=
  match e with
  | DigitalWrite pin _ => if pin =? LED then 3 else 0
  | DelayMicroseconds us => us
  | Delay _ => 0
  | SerialWrite _ => 0
  end.

Fixpoint signal_time (evs : list event) : Z :=
  match evs with
  | [] => 0
  | e :: rest => air_time e + signal_time rest
  end.

(** The lengths of the delays that pass while the LED is on, the LED being
    at [lvl] to begin with. *)
Fixpoint high_delays (lvl : level) (evs : list event) : list Z :=
  match evs with
  | [] => []
  | DigitalWrite pin v :: rest =>
      if pin =? LED then high_delays v rest else high_delays lvl rest
  | DelayMicroseconds us :: rest =>
      match lvl with
      | HIGH => us :: high_delays lvl rest
      | LOW => high_delays lvl rest
      end
  | _ :: rest => high_delays lvl rest
  end.

(** The level of [pin] after [evs], from the level [lvl]. *)
Fixpoint level_after (pin : Z) (lvl : level) (evs : list event) : level :=
  match evs with
  | [] => lvl
  | DigitalWrite p v :: rest =>
      if p =? pin then level_after pin v rest else level_after pin lvl rest
  | _ :: rest => level_after pin lvl rest
  end.

(** Calls of [delay] and writes to the serial port. *)
Definition sleeps_or_writes (e : event) : bool :=
  match e with
  | Delay _ => true
  | SerialWrite _ => true
  | _ => false
  end.

(** The ready byte written to the host. *)
Definition is_ready (e : event) : bool :=
  match e with
  | SerialWrite b => b =? READY_TO_ACCEPT_ACK
  | _ => false
  end.

(** * Properties *)

(** ** Machine integers *)

Lemma pow2_split (w : Z) : 1 <= w -> 2 ^ w = 2 * 2 ^ (w - 1).
Proof.
  intros Hw. replace w with (Z.succ (w - 1)) at 1 by lia.
  apply Z.pow_succ_r. lia.
Qed.

Lemma wrap_id (w x : Z) :
  1 <= w -> min_int w <= x <= max_int w -> wrap w x = x.
Proof.
  unfold wrap, min_int, max_int. intros Hw Hx.
  rewrite Z.mod_small; [lia|]. rewrite (pow2_split w Hw). lia.
Qed.

Lemma pow2_ge_15 (w : Z) : 16 <= w -> 2 ^ 15 <= 2 ^ (w - 1).
Proof. intros Hw. apply Z.pow_le_mono_r; lia. Qed.

Lemma wrap_small (w x : Z) :
  16 <= w -> -32768 <= x <= 32767 -> wrap w x = x.
Proof.
  intros Hw Hx. apply wrap_id; [lia|].
  pose proof (pow2_ge_15 w Hw) as H. unfold min_int, max_int.
  change (2 ^ 15) with 32768 in H. lia.
Qed.

(** ** Appending to the output *)

Lemma emit_nil (m : machine) : emit [] m = m.
Proof. destruct m; unfold emit; simpl. now rewrite app_nil_r. Qed.

Lemma emit_emit (a b : list event) (m : machine) :
  emit b (emit a m) = emit (a ++ b) m.
Proof. unfold emit; simpl. now rewrite app_assoc. Qed.

(** ** [pulse] *)

Lemma pulse_nonpositive (w : Z) (fuel : nat) (cycles : Z) (m : machine) :
  cycles <= 0 -> pulse w fuel cycles m = Done tt m.
Proof.
  intros Hc. destruct fuel; simpl;
    (destruct (cycles >? 0) eqn:E; [lia | reflexivity]).
Qed.

Lemma pulse_burst (w : Z) (k n : nat) (m : machine) :
  16 <= w -> Z.of_nat k <= max_int w ->
  pulse w (k + n) (Z.of_nat k) m = Done tt (emit (carrier_burst k) m).
Proof.
  intros Hw. revert m. induction k as [|k IH]; intros m Hk.
  - rewrite pulse_nonpositive by lia. now rewrite emit_nil.
  - change (S k + n)%nat with (S (k + n)).
    cbn [pulse].
    replace (Z.of_nat (S k) >? 0) with true by (symmetry; apply Z.gtb_lt; lia).
    unfold bind, digitalWrite, delayMicroseconds, int.
    pose proof (pow2_ge_15 w Hw) as Hp.
    rewrite wrap_id; [|lia|unfold min_int, max_int in *; lia].
    replace (Z.of_nat (S k) - 1) with (Z.of_nat k) by lia.
    rewrite IH by lia. rewrite !emit_emit. reflexivity.
Qed.

(** ** One bit of the packet *)

Lemma land_pow2 (a j : Z) :
  0 <= j -> negb (Z.land a (2 ^ j) =? 0) = Z.testbit a j.
Proof.
  intros Hj.
  assert (H : Z.land a (2 ^ j) = if Z.testbit a j then 2 ^ j else 0).
  { apply Z.bits_inj'. intros i Hi.
    rewrite Z.land_spec, Z.pow2_bits_eqb by lia.
    destruct (Z.eqb_spec j i) as [->|Hne].
    - destruct (Z.testbit a i); simpl.
      + rewrite Z.pow2_bits_eqb by lia. now rewrite Z.eqb_refl.
      + now rewrite Z.bits_0.
    - rewrite andb_false_r. destruct (Z.testbit a j).
      + rewrite Z.pow2_bits_eqb by lia. symmetry. now apply Z.eqb_neq.
      + now rewrite Z.bits_0. }
  rewrite H. destruct (Z.testbit a j); simpl; [|reflexivity].
  assert (0 < 2 ^ j) by (apply Z.pow_pos_nonneg; lia).
  destruct (Z.eqb_spec (2 ^ j) 0); [lia | reflexivity].
Qed.

Lemma mask_at_pow2 (k : nat) :
  (k <= 7)%nat -> mask_at (Z.of_nat k) = Some (2 ^ Z.of_nat k).
Proof.
  intros Hk.
  do 8 (destruct k as [|k]; [reflexivity|]). lia.
Qed.

Lemma get4_in_range (a : byte4) (i : Z) (b : byte) :
  get4 a i = Some b -> 0 <= i <= 3.
Proof.
  unfold get4. intros H.
  destruct i as [|[[q|q|]|[q|q|]|]|p]; try discriminate H; lia.
Qed.

Lemma send_bit_step (w : Z) (n k : nat) (m : machine) (b : byte) :
  16 <= w ->
  get4 (packet_bytes (sp m)) (current_byte_index (sp m)) = Some b ->
  current_bit_index (sp m) = Z.of_nat k -> (k <= 7)%nat ->
  0 <= ones (sp m) <= 32 -> 0 <= zeroes (sp m) <= 32 ->
  send_bit w (12 + n) m
  = Done tt (after_bit m (Z.testbit (byte_val b) (Z.of_nat k)) k).
Proof.
  intros Hw Hb Hj Hk Ho Hz.
  pose proof (get4_in_range _ _ _ Hb) as Hi.
  unfold send_bit. unfold bind at 1.
  change CYCLES_FOR_BIT with (Z.of_nat 12).
  rewrite pulse_burst; [|assumption|].
  2:{ pose proof (pow2_ge_15 w Hw). unfold max_int. simpl Z.of_nat. lia. }
  destruct m as [c [i j o z pb] rx out]. simpl in Hb, Hj, Ho, Hz, Hi. subst j.
  unfold bind, get_statics, lift_option, emit. simpl sp. simpl packet_bytes.
  simpl current_byte_index. simpl current_bit_index. rewrite Hb.
  rewrite (mask_at_pow2 k Hk).
  rewrite land_pow2 by lia.
  unfold set_current_bit_index, bind, get_statics, put_statics, set_sp. simpl.
  unfold int. rewrite (wrap_small w (Z.of_nat k - 1)) by lia.
  unfold after_bit, symbol. simpl.
  destruct (Z.testbit (byte_val b) (Z.of_nat k)); simpl;
    unfold one, zero, delayMicroseconds, set_ones, set_zeroes, bind, get_statics,
      put_statics, set_sp, emit; simpl.
  - rewrite (wrap_small w (o + 1)) by lia.
    destruct k as [|k'].
    + simpl. unfold set_current_bit_index, set_current_byte_index, bind,
        get_statics, put_statics, set_sp; simpl.
      rewrite !wrap_small by (assumption || (unfold BITS_IN_BYTE; lia)).
      rewrite <- !app_assoc, Z.add_0_r. reflexivity.
    + replace (Z.of_nat (S k') - 1 <? 0) with false by (symmetry; apply Z.ltb_ge; lia).
      unfold ret. rewrite <- !app_assoc, Z.add_0_r.
      replace (Z.of_nat (S k') - 1) with (Z.of_nat k') by lia. reflexivity.
  - rewrite (wrap_small w (z + 1)) by lia.
    destruct k as [|k'].
    + simpl. unfold set_current_bit_index, set_current_byte_index, bind,
        get_statics, put_statics, set_sp; simpl.
      rewrite !wrap_small by (assumption || (unfold BITS_IN_BYTE; lia)).
      rewrite <- !app_assoc, Z.add_0_r. reflexivity.
    + replace (Z.of_nat (S k') - 1 <? 0) with false by (symmetry; apply Z.ltb_ge; lia).
      unfold ret. rewrite <- !app_assoc, Z.add_0_r.
      replace (Z.of_nat (S k') - 1) with (Z.of_nat k') by lia. reflexivity.
Qed.

(** ** The loop of [sendPacket] *)

Lemma while_step (fuel : nat) (cond : machine -> bool) (body : M unit) (m m' : machine) :
  cond m = true -> body m = Done tt m' ->
  while (S fuel) cond body m = while fuel cond body m'.
Proof. intros Hc Hb. simpl. now rewrite Hc, Hb. Qed.

Lemma while_exit (fuel : nat) (cond : machine -> bool) (body : M unit) (m : machine) :
  cond m = false -> while fuel cond body m = Done tt m.
Proof. intros Hc. destruct fuel; simpl; now rewrite Hc. Qed.

Lemma byte_bits_down (b : byte) : byte_bits b = bits_down (byte_val b) 7.
Proof. reflexivity. Qed.

Lemma length_bits_down (v : Z) (k : nat) : length (bits_down v k) = S k.
Proof. induction k as [|k IH]; simpl; [reflexivity|]. simpl in IH. now rewrite IH. Qed.

Lemma count_bits_cons (v b : bool) (l : list bool) :
  count_bits v (b :: l) = Z.b2z (Bool.eqb v b) + count_bits v l.
Proof.
  unfold count_bits. simpl. destruct (Bool.eqb v b); simpl Z.b2z; simpl length; lia.
Qed.

Lemma count_bits_app (v : bool) (l1 l2 : list bool) :
  count_bits v (l1 ++ l2) = count_bits v l1 + count_bits v l2.
Proof.
  unfold count_bits. rewrite filter_app, length_app. lia.
Qed.

Lemma count_bits_total (l : list bool) :
  count_bits true l + count_bits false l = Z.of_nat (length l).
Proof.
  induction l as [|b l IH]; [reflexivity|].
  rewrite !count_bits_cons. simpl length. destruct b; simpl Z.b2z; lia.
Qed.

Lemma count_bits_nonneg (v : bool) (l : list bool) : 0 <= count_bits v l.
Proof. unfold count_bits. lia. Qed.

Lemma count_bits_le (v : bool) (l : list bool) :
  count_bits v l <= Z.of_nat (length l).
Proof.
  pose proof (count_bits_total l). pose proof (count_bits_nonneg true l).
  pose proof (count_bits_nonneg false l). destruct v; lia.
Qed.

Lemma send_low_bits (w : Z) (n f k : nat) (b : byte) (m : machine) :
  16 <= w ->
  get4 (packet_bytes (sp m)) (current_byte_index (sp m)) = Some b ->
  current_bit_index (sp m) = Z.of_nat k -> (k <= 7)%nat ->
  0 <= ones (sp m) -> ones (sp m) + Z.of_nat k <= 32 ->
  0 <= zeroes (sp m) -> zeroes (sp m) + Z.of_nat k <= 32 ->
  while (S k + f) more_bytes (send_bit w (12 + n)) m
  = while f more_bytes (send_bit w (12 + n)) (after_byte m (bits_down (byte_val b) k)).
Proof.
  intros Hw. revert m. induction k as [|k IH]; intros m Hb Hj Hk Ho1 Ho2 Hz1 Hz2.
  - change (1 + f)%nat with (S f).
    pose proof (get4_in_range _ _ _ Hb) as Hi.
    set (bit := Z.testbit (byte_val b) (Z.of_nat 0)).
    rewrite (while_step f more_bytes _ m (after_bit m bit 0)).
    + f_equal. unfold after_byte, after_bit. cbn [bits_down]. fold bit.
      cbn [map concat]. rewrite !count_bits_cons, app_nil_r.
      change (count_bits true []) with 0. change (count_bits false []) with 0.
      destruct bit; cbn [Bool.eqb negb Z.b2z]; rewrite ?Z.add_0_r; reflexivity.
    + unfold more_bytes, BYTES_IN_PACKET. apply Z.ltb_lt. lia.
    + apply (send_bit_step w n 0 m b); try assumption; lia.
  - change (S (S k) + f)%nat with (S (S k + f)).
    pose proof (get4_in_range _ _ _ Hb) as Hi.
    set (bit := Z.testbit (byte_val b) (Z.of_nat (S k))).
    rewrite (while_step (S k + f) more_bytes _ m (after_bit m bit (S k))).
    + rewrite IH.
      * f_equal. unfold after_byte, after_bit. cbn [sp command serial_rx output
          current_byte_index current_bit_index ones zeroes packet_bytes].
        cbn [bits_down]. fold bit. cbn [map concat].
        rewrite !count_bits_cons. rewrite <- !app_assoc.
        destruct bit; cbn [Bool.eqb negb Z.b2z]; f_equal; f_equal; lia.
      * exact Hb.
      * reflexivity.
      * lia.
      * cbn [after_bit sp ones]. destruct bit; simpl Z.b2z; lia.
      * cbn [after_bit sp ones]. destruct bit; simpl Z.b2z; lia.
      * cbn [after_bit sp zeroes]. destruct bit; simpl negb; simpl Z.b2z; lia.
      * cbn [after_bit sp zeroes]. destruct bit; simpl negb; simpl Z.b2z; lia.
    + unfold more_bytes, BYTES_IN_PACKET. apply Z.ltb_lt. lia.
    + apply (send_bit_step w n (S k) m b); try assumption; lia.
Qed.

Lemma count_byte_bits_bound (v : bool) (b : byte) :
  0 <= count_bits v (byte_bits b) <= 8.
Proof.
  rewrite byte_bits_down.
  pose proof (count_bits_nonneg v (bits_down (byte_val b) 7)).
  pose proof (count_bits_le v (bits_down (byte_val b) 7)) as H1.
  rewrite length_bits_down in H1. lia.
Qed.

Lemma send_byte (w : Z) (n f : nat) (b : byte) (m : machine) :
  16 <= w ->
  get4 (packet_bytes (sp m)) (current_byte_index (sp m)) = Some b ->
  current_bit_index (sp m) = 7 ->
  0 <= ones (sp m) <= 24 -> 0 <= zeroes (sp m) <= 24 ->
  while (8 + f) more_bytes (send_bit w (12 + n)) m
  = while f more_bytes (send_bit w (12 + n)) (after_byte m (byte_bits b)).
Proof.
  intros Hw Hb Hj Ho Hz. rewrite byte_bits_down.
  apply (send_low_bits w n f 7 b m); try assumption;
    change (Z.of_nat 7) with 7; lia.
Qed.

(** ** The whole of [sendPacket] *)

Lemma sendPacket_spec (w : Z) (n : nat) (yaw pitch throttle trim : byte) (m : machine) :
  16 <= w ->
  sendPacket w (77 + n) yaw pitch throttle trim m
  = match residualDelay w (count_bits true (packet_bits yaw pitch throttle trim))
                          (count_bits false (packet_bits yaw pitch throttle trim)) with
    | Some r =>
        Done r (mkMachine (command m) (final_statics yaw pitch throttle trim)
                          (serial_rx m)
                          (output m ++ packet_events yaw pitch throttle trim))
    | None => Undefined
    end.
Proof.
  intros Hw.
  pose proof (pow2_ge_15 w Hw) as Hp.
  pose proof (count_byte_bits_bound true yaw) as Hy1.
  pose proof (count_byte_bits_bound false yaw) as Hy0.
  pose proof (count_byte_bits_bound true pitch) as Hp1.
  pose proof (count_byte_bits_bound false pitch) as Hp0.
  pose proof (count_byte_bits_bound true throttle) as Ht1.
  pose proof (count_byte_bits_bound false throttle) as Ht0.
  destruct m as [c [i0 j0 o0 z0 pb0] rx out].
  unfold sendPacket.
  unfold bind at 1. unfold digitalWrite at 1.
  unfold bind at 1. unfold set_ones, bind, get_statics, put_statics, set_sp, emit.
  cbn [sp command serial_rx output current_byte_index current_bit_index ones zeroes packet_bytes].
  unfold set_zeroes, bind, get_statics, put_statics, set_sp.
  cbn [sp command serial_rx output current_byte_index current_bit_index ones zeroes packet_bytes].
  unfold set_packet_byte, bind, get_statics, put_statics, set_sp, lift_option.
  cbn [sp command serial_rx output current_byte_index current_bit_index ones zeroes packet_bytes
       set4 YAW PITCH THROTTLE TRIM elt0 elt1 elt2 elt3].
  unfold set_current_byte_index, set_current_bit_index, bind, get_statics, put_statics, set_sp.
  cbn [sp command serial_rx output current_byte_index current_bit_index ones zeroes packet_bytes].
  unfold int at 1. rewrite (wrap_small w (BITS_IN_BYTE - 1)) by (unfold BITS_IN_BYTE; lia).
  unfold header, bind. change CYCLES_FOR_HEADER with (Z.of_nat 77).
  rewrite pulse_burst; [|assumption|unfold max_int; simpl Z.of_nat; lia].
  unfold delayMicroseconds. rewrite !emit_emit.
  fold more_bytes.
  change (send_bit w (77 + n)) with (send_bit w (12 + (65 + n))).
  change (while (77 + n)) with (while (8 + (8 + (8 + (8 + (45 + n)))))).
  rewrite (send_byte w (65 + n) _ yaw); [|assumption|reflexivity|reflexivity|simpl; lia|simpl; lia].
  rewrite (send_byte w (65 + n) _ pitch);
    [|assumption|reflexivity|reflexivity|simpl; lia|simpl; lia].
  rewrite (send_byte w (65 + n) _ throttle);
    [|assumption|reflexivity|reflexivity|simpl; lia|simpl; lia].
  rewrite (send_byte w (65 + n) _ trim);
    [|assumption|reflexivity|reflexivity|simpl; lia|simpl; lia].
  rewrite while_exit by reflexivity.
  unfold footer. change CYCLES_FOR_FOOTER with (Z.of_nat 12).
  change (pulse w (77 + n)) with (pulse w (12 + (65 + n))).
  rewrite pulse_burst; [|assumption|unfold max_int; simpl Z.of_nat; lia].
  unfold digitalWrite. rewrite emit_emit.
  unfold emit, after_byte.
  cbn [sp command serial_rx output current_byte_index current_bit_index ones zeroes packet_bytes].
  unfold packet_bits. rewrite !count_bits_app.
  replace (0 + count_bits true (byte_bits yaw) + count_bits true (byte_bits pitch)
           + count_bits true (byte_bits throttle) + count_bits true (byte_bits trim))
    with (count_bits true (byte_bits yaw) + (count_bits true (byte_bits pitch)
           + (count_bits true (byte_bits throttle) + count_bits true (byte_bits trim)))) by lia.
  replace (0 + count_bits false (byte_bits yaw) + count_bits false (byte_bits pitch)
           + count_bits false (byte_bits throttle) + count_bits false (byte_bits trim))
    with (count_bits false (byte_bits yaw) + (count_bits false (byte_bits pitch)
           + (count_bits false (byte_bits throttle) + count_bits false (byte_bits trim)))) by lia.
  destruct (residualDelay w _ _) as [r|]; [|reflexivity].
  f_equal.
  unfold final_statics, packet_events, packet_bits, header_events, footer_events.
  rewrite !count_bits_app, !map_app, !concat_app.
  change (0 + 1 + 1 + 1 + 1) with 4.
  rewrite <- !app_assoc. reflexivity.
Qed.

(** ** The returned delay *)

Lemma holds_from_spec (p : Z -> bool) (n : nat) (lo t : Z) :
  holds_from n lo p = true -> lo <= t < lo + Z.of_nat n -> p t = true.
Proof.
  revert lo. induction n as [|n IH]; intros lo H Ht; [lia|].
  simpl in H. apply andb_prop in H. destruct H as [H0 H1].
  destruct (Z.eq_dec t lo) as [->|Hne]; [assumption|].
  apply (IH (lo + 1)); [assumption|lia].
Qed.

(** On every packet time that the sketch can compute, wrapped or not, the
    float expression is the quotient, rounded toward zero, of the time left
    in the period by 1000. *)
Lemma residual_float_quot (t : Z) :
  -32768 <= t <= 45528 -> residual_float t = Some (Z.quot (100000 - t) 1000).
Proof.
  intros Ht.
  assert (H : holds_from (Z.to_nat 78297) (-32768) residual_agrees = true)
    by (vm_compute; reflexivity).
  pose proof (holds_from_spec residual_agrees _ _ t H) as Hp.
  unfold residual_agrees in Hp.
  destruct (residual_float t) as [r|].
  - f_equal. apply Z.eqb_eq. apply Hp. lia.
  - discriminate Hp. lia.
Qed.

Lemma residual_of_total_quot (w t : Z) :
  16 <= w -> -32768 <= t <= 45528 ->
  residual_of_total w t = Some (Z.quot (100000 - t) 1000).
Proof.
  intros Hw Ht. pose proof (pow2_ge_15 w Hw) as Hp.
  change (2 ^ 15) with 32768 in Hp.
  unfold residual_of_total.
  change (Z.quot MICROSECONDS_IN_A_SECOND PACKETS_PER_SECOND) with 100.
  unfold int. rewrite (wrap_small w 100) by lia.
  change MICROSECONDS_IN_A_SECOND with 1000.
  fold (residual_float t). rewrite residual_float_quot by assumption.
  assert (Hq : 54 <= Z.quot (100000 - t) 1000 <= 132).
  { rewrite Z.quot_div_nonneg by lia.
    assert (H1 : 54 <= (100000 - t) / 1000) by (apply Z.div_le_lower_bound; lia).
    assert (H2 : (100000 - t) / 1000 < 133) by (apply Z.div_lt_upper_bound; lia).
    lia. }
  unfold min_int, max_int.
  replace (- 2 ^ (w - 1) <=? Z.quot (100000 - t) 1000) with true
    by (symmetry; apply Z.leb_le; lia).
  replace (Z.quot (100000 - t) 1000 <=? 2 ^ (w - 1) - 1) with true
    by (symmetry; apply Z.leb_le; lia).
  reflexivity.
Qed.

Lemma wrap_add_l (w a b : Z) : wrap w (wrap w a + b) = wrap w (a + b).
Proof.
  unfold wrap. f_equal.
  replace ((a + 2 ^ (w - 1)) mod 2 ^ w - 2 ^ (w - 1) + b + 2 ^ (w - 1))
    with ((a + 2 ^ (w - 1)) mod 2 ^ w + b) by lia.
  rewrite Zplus_mod_idemp_l. f_equal. lia.
Qed.

Lemma total_packet_time_wrap (w o z : Z) :
  16 <= w -> 0 <= o <= 32 -> 0 <= z <= 32 ->
  total_packet_time w o z = wrap w (exact_packet_time o z).
Proof.
  intros Hw Ho Hz.
  unfold total_packet_time, header_time, footer_time, total_bit_start_time, int.
  unfold CYCLES_FOR_HEADER, CYCLES_FOR_FOOTER, CYCLES_FOR_BIT, CYCLE_TIME, HEADER_DELAY,
    BITS_IN_BYTE, BYTES_IN_PACKET, ONE, ZERO.
  rewrite (wrap_small w (77 * 26)) by lia.
  rewrite (wrap_small w (77 * 26 + 1998)) by lia.
  rewrite (wrap_small w (12 * 26)) by lia.
  rewrite (wrap_small w (12 * 26 * 8)) by lia.
  rewrite (wrap_small w (12 * 26 * 8 * 4)) by lia.
  rewrite (wrap_small w (688 * o)) by lia.
  rewrite (wrap_small w (288 * z)) by lia.
  rewrite (wrap_small w (77 * 26 + 1998 + 12 * 26)) by lia.
  rewrite (wrap_small w (77 * 26 + 1998 + 12 * 26 + 12 * 26 * 8 * 4)) by lia.
  rewrite wrap_add_l. reflexivity.
Qed.

(** A packet time below 65536 either fits the [int] or, on 16 bits, comes
    out 65536 too small. *)
Lemma wrap_packet_time (w t : Z) :
  16 <= w -> 0 <= t <= 65535 ->
  (wrap w t = t /\ t <= max_int w)
  \/ (w = 16 /\ 32768 <= t /\ wrap w t = t - 65536).
Proof.
  intros Hw Ht.
  destruct (Z.eq_dec w 16) as [->|Hne].
  - unfold wrap, max_int. change (2 ^ (16 - 1)) with 32768. change (2 ^ 16) with 65536.
    destruct (Z_lt_le_dec t 32768) as [Hlt|Hge].
    + left. rewrite Z.mod_small by lia. lia.
    + right. split; [reflexivity|]. split; [assumption|].
      replace (t + 32768) with ((t - 32768) + 1 * 65536) by lia.
      rewrite Z.mod_add by lia. rewrite Z.mod_small by lia. lia.
  - left.
    assert (Hp : 2 ^ 16 <= 2 ^ (w - 1)) by (apply Z.pow_le_mono_r; lia).
    change (2 ^ 16) with 65536 in Hp.
    split; [|unfold max_int; lia].
    apply wrap_id; [lia|]. unfold min_int, max_int. lia.
Qed.

Lemma exact_packet_time_range (o z : Z) :
  0 <= o <= 32 -> 0 <= z <= 32 -> 14296 <= exact_packet_time o z <= 45528.
Proof. unfold exact_packet_time. lia. Qed.

(** The delay returned for any two counters of at most 32. *)
Lemma residualDelay_quot (w o z : Z) :
  16 <= w -> 0 <= o <= 32 -> 0 <= z <= 32 ->
  residualDelay w o z = Some (Z.quot (100000 - total_packet_time w o z) 1000)
  /\ -32768 <= total_packet_time w o z <= 45528.
Proof.
  intros Hw Ho Hz.
  pose proof (exact_packet_time_range o z Ho Hz) as Hr.
  assert (Ht : -32768 <= total_packet_time w o z <= 45528).
  { rewrite total_packet_time_wrap by assumption.
    destruct (wrap_packet_time w (exact_packet_time o z) Hw) as [[H _]|[_ [H1 H2]]]; lia. }
  split; [|assumption].
  unfold residualDelay. now apply residual_of_total_quot.
Qed.

(** The counters of a packet, its time and the delay that [sendPacket]
    returns for it. *)
Lemma packet_counts (yaw pitch throttle trim : byte) :
  length (packet_bits yaw pitch throttle trim) = 32%nat
  /\ count_bits true (packet_bits yaw pitch throttle trim)
     + count_bits false (packet_bits yaw pitch throttle trim) = 32
  /\ 0 <= count_bits true (packet_bits yaw pitch throttle trim) <= 32
  /\ 0 <= count_bits false (packet_bits yaw pitch throttle trim) <= 32.
Proof.
  assert (Hl : length (packet_bits yaw pitch throttle trim) = 32%nat) by reflexivity.
  pose proof (count_bits_total (packet_bits yaw pitch throttle trim)) as Ht.
  pose proof (count_bits_nonneg true (packet_bits yaw pitch throttle trim)).
  pose proof (count_bits_nonneg false (packet_bits yaw pitch throttle trim)).
  rewrite Hl in Ht. change (Z.of_nat 32) with 32 in Ht. lia.
Qed.

Lemma sendPacket_returns (w : Z) (n : nat) (yaw pitch throttle trim : byte) (m : machine) :
  16 <= w ->
  let o := count_bits true (packet_bits yaw pitch throttle trim) in
  let z := count_bits false (packet_bits yaw pitch throttle trim) in
  sendPacket w (77 + n) yaw pitch throttle trim m
  = Done (Z.quot (100000 - total_packet_time w o z) 1000)
         (mkMachine (command m) (final_statics yaw pitch throttle trim) (serial_rx m)
                    (output m ++ packet_events yaw pitch throttle trim))
  /\ total_packet_time w o z <= 36312
  /\ 63 <= Z.quot (100000 - total_packet_time w o z) 1000 <= 132.
Proof.
  intros Hw o z.
  destruct (packet_counts yaw pitch throttle trim) as [_ [Hs [Ho Hz]]].
  fold o in Hs, Ho. fold z in Hs, Hz.
  destruct (residualDelay_quot w o z Hw Ho Hz) as [Hr Ht].
  rewrite sendPacket_spec by assumption. fold o. fold z. rewrite Hr.
  split; [reflexivity|].
  assert (He : 23512 <= exact_packet_time o z <= 36312) by (unfold exact_packet_time; lia).
  assert (Hc : -32768 <= total_packet_time w o z <= 36312).
  { rewrite total_packet_time_wrap by assumption.
    destruct (wrap_packet_time w (exact_packet_time o z) Hw) as [[H _]|[_ [H1 H2]]]; lia. }
  split; [lia|].
  rewrite Z.quot_div_nonneg by lia.
  assert (H1 : 63 <= (100000 - total_packet_time w o z) / 1000)
    by (apply Z.div_le_lower_bound; lia).
  assert (H2 : (100000 - total_packet_time w o z) / 1000 < 133)
    by (apply Z.div_lt_upper_bound; lia).
  lia.
Qed.

(** ** The receiver reads back what was sent *)

Lemma event_eqb_refl (e : event) : event_eqb e e = true.
Proof.
  destruct e as [pin v|us|ms|b]; simpl; rewrite ?Z.eqb_refl; [|reflexivity..].
  now destruct v.
Qed.

Lemma strip_prefix_app (pre rest : list event) :
  strip_prefix pre (pre ++ rest) = Some rest.
Proof.
  induction pre as [|e pre IH]; simpl; [reflexivity|].
  now rewrite event_eqb_refl.
Qed.

Lemma on_air_burst (n : nat) : filter on_air (carrier_burst n) = carrier_burst n.
Proof. induction n as [|n IH]; simpl; [reflexivity|]. now rewrite IH. Qed.

Lemma on_air_symbol (bit : bool) : filter on_air (symbol bit) = symbol bit.
Proof. unfold symbol. rewrite filter_app, on_air_burst. reflexivity. Qed.

Lemma on_air_symbols (bits : list bool) :
  filter on_air (concat (map symbol bits)) = concat (map symbol bits).
Proof.
  induction bits as [|b bits IH]; cbn [map concat]; [reflexivity|].
  now rewrite filter_app, on_air_symbol, IH.
Qed.

Lemma read_bit_symbol (bit : bool) (rest : list event) :
  read_bit (symbol bit ++ rest) = Some (bit, rest).
Proof.
  unfold read_bit, symbol. rewrite <- app_assoc, strip_prefix_app.
  destruct bit; reflexivity.
Qed.

Lemma read_bits_symbols (bits : list bool) (acc : Z) (rest : list event) :
  read_bits (length bits) acc (concat (map symbol bits) ++ rest)
  = Some (fold_left (fun a b => 2 * a + Z.b2z b) bits acc, rest).
Proof.
  revert acc.
  induction bits as [|b bits IH]; intros acc; cbn [length map concat read_bits fold_left];
    [reflexivity|].
  rewrite <- app_assoc, read_bit_symbol. apply IH.
Qed.

Lemma byte_of_bits (b : byte) :
  byte_of_int (fold_left (fun a x => 2 * a + Z.b2z x) (byte_bits b) 0) = b.
Proof. destruct b; reflexivity. Qed.

Lemma read_byte_symbols (b : byte) (rest : list event) :
  read_byte (concat (map symbol (byte_bits b)) ++ rest) = Some (b, rest).
Proof.
  unfold read_byte.
  change 8%nat with (length (byte_bits b)).
  rewrite read_bits_symbols, byte_of_bits. reflexivity.
Qed.

Lemma decode_packet_events (yaw pitch throttle trim : byte) :
  decode (packet_events yaw pitch throttle trim) = Some (mkByte4 yaw pitch throttle trim).
Proof.
  unfold decode, packet_events, header_events, footer_events, packet_bits.
  rewrite !map_app, !concat_app.
  rewrite !filter_app, !on_air_burst, !on_air_symbols.
  change (filter on_air [DigitalWrite STATUS HIGH]) with (@nil event).
  change (filter on_air [DigitalWrite STATUS LOW]) with (@nil event).
  change (filter on_air [DelayMicroseconds HEADER_DELAY]) with [DelayMicroseconds HEADER_DELAY].
  rewrite app_nil_l, app_nil_r.
  unfold read_header. rewrite <- !app_assoc, strip_prefix_app.
  cbn [app]. change (Z.abs (HEADER_DELAY - 1998) <=? 100) with true. cbv iota.
  rewrite read_byte_symbols. rewrite read_byte_symbols.
  rewrite read_byte_symbols. rewrite read_byte_symbols.
  rewrite <- (app_nil_r (carrier_burst 12)) at 2.
  rewrite strip_prefix_app. reflexivity.
Qed.

(** ** The serial-read step *)

Lemma byte_of_int_val (b : byte) : byte_of_int (byte_val b) = b.
Proof. destruct b; reflexivity. Qed.
Lemma read_command_step (w : Z) (f : nat) (i : Z) (m : machine) (b : byte)
      (rest : list byte) (a : byte4) :
  16 <= w -> 0 <= i <= 3 -> serial_rx m = b :: rest ->
  set4 (command m) i b = Some a ->
  read_command w (S f) i m
  = read_command w f (i + 1) (mkMachine a (sp m) rest (output m)).
Proof.
  intros Hw Hi Hrx Hset. cbn [read_command].
  replace (i <? 4) with true by (symmetry; apply Z.ltb_lt; lia).
  unfold bind at 1. unfold bind at 1. unfold Serial_read. rewrite Hrx.
  unfold set_command.
  cbn [command sp serial_rx output]. rewrite byte_of_int_val, Hset.
  unfold int. rewrite wrap_small by lia. reflexivity.
Qed.

Lemma pollUpdate_polled (w : Z) (n : nat) (m : machine) :
  16 <= w -> pollUpdate w (4 + n) m = Done tt (polled m).
Proof.
  intros Hw. destruct m as [c s rx out].
  unfold pollUpdate, polled, bind, Serial_available. cbn [serial_rx].
  destruct rx as [|y [|p [|t [|tr rest]]]]; try reflexivity.
  replace (Z.of_nat (length (y :: p :: t :: tr :: rest)) >=? BYTES_IN_PACKET) with true.
  2:{ symmetry. unfold BYTES_IN_PACKET. simpl length. apply Z.geb_le. lia. }
  change (4 + n)%nat with (S (S (S (S n)))).
  do 4 (erewrite read_command_step; [|assumption|lia|reflexivity|reflexivity];
        cbn [command sp serial_rx output]).
  destruct n; reflexivity.
Qed.

Lemma polled_output (m : machine) : output (polled m) = output m.
Proof.
  unfold polled. destruct (serial_rx m) as [|y [|p [|t [|tr rest]]]]; reflexivity.
Qed.

Lemma to_unsigned_long_small (r : Z) : 0 <= r <= 132 -> to_unsigned_long r = r.
Proof. intros H. unfold to_unsigned_long. apply Z.mod_small. change (2 ^ 32) with 4294967296. lia. Qed.

(** One iteration of [loop]: the command left by the serial-read step is
    sent, the returned delay is slept, the ready byte is written. *)
Lemma loop_iteration_spec (w : Z) (n : nat) (m : machine) :
  16 <= w ->
  let c := command (polled m) in
  let bits := packet_bits (elt0 c) (elt1 c) (elt2 c) (elt3 c) in
  let r := Z.quot (100000 - total_packet_time w (count_bits true bits) (count_bits false bits)) 1000 in
  loop_iteration w (77 + n) m
  = Done tt (mkMachine c (final_statics (elt0 c) (elt1 c) (elt2 c) (elt3 c))
                       (serial_rx (polled m))
                       (output m ++ packet_events (elt0 c) (elt1 c) (elt2 c) (elt3 c)
                                 ++ [Delay r; SerialWrite READY_TO_ACCEPT_ACK])).
Proof.
  intros Hw c bits r.
  unfold loop_iteration. unfold bind at 1.
  change (pollUpdate w (77 + n)) with (pollUpdate w (4 + (73 + n))).
  rewrite pollUpdate_polled by assumption.
  unfold bind at 1. unfold get_command at 1. unfold lift_option. cbn [get4 YAW]. 
  unfold bind at 1. unfold get_command at 1. unfold lift_option. cbn [get4 PITCH]. 
  unfold bind at 1. unfold get_command at 1. unfold lift_option. cbn [get4 THROTTLE]. 
  unfold bind at 1. unfold get_command at 1. unfold lift_option. cbn [get4 TRIM].
  fold c.
  destruct (sendPacket_returns w n (elt0 c) (elt1 c) (elt2 c) (elt3 c) (polled m) Hw)
    as [Hs [_ Hr]].
  fold bits in Hs, Hr. fold r in Hs, Hr.
  unfold bind at 1. rewrite Hs.
  unfold bind, delay, Serial_write. rewrite emit_emit. unfold emit.
  cbn [command sp serial_rx output]. rewrite polled_output.
  rewrite to_unsigned_long_small by lia. fold c.
  rewrite <- app_assoc. reflexivity.
Qed.

Lemma header_burst (w : Z) (n : nat) (m : machine) :
  16 <= w ->
  header w (77 + n) m = Done tt (emit (carrier_burst 77 ++ [DelayMicroseconds 1998]) m).
Proof.
  intros Hw. pose proof (pow2_ge_15 w Hw) as Hp.
  unfold header, bind. change CYCLES_FOR_HEADER with (Z.of_nat 77).
  rewrite pulse_burst; [|assumption|unfold max_int; simpl Z.of_nat; lia].
  unfold delayMicroseconds. now rewrite emit_emit.
Qed.

Lemma footer_burst (w : Z) (n : nat) (m : machine) :
  16 <= w -> footer w (12 + n) m = Done tt (emit (carrier_burst 12) m).
Proof.
  intros Hw. pose proof (pow2_ge_15 w Hw) as Hp.
  unfold footer. change CYCLES_FOR_FOOTER with (Z.of_nat 12).
  apply pulse_burst; [assumption|unfold max_int; simpl Z.of_nat; lia].
Qed.

(** The first scenario: the command at rest. *)
Lemma scenario_1_returns (w : Z) (n : nat) (m : machine) :
  16 <= w ->
  sendPacket w (77 + n) x3f x3f x00 x3f m
  = Done 69 (mkMachine (command m) (final_statics x3f x3f x00 x3f) (serial_rx m)
                       (output m ++ packet_events x3f x3f x00 x3f))
  /\ total_packet_time w 18 14 = 30712.
Proof.
  intros Hw.
  destruct (sendPacket_returns w n x3f x3f x00 x3f m Hw) as [Hs _].
  change (count_bits true (packet_bits x3f x3f x00 x3f)) with 18 in Hs.
  change (count_bits false (packet_bits x3f x3f x00 x3f)) with 14 in Hs.
  assert (Ht : total_packet_time w 18 14 = 30712).
  { rewrite total_packet_time_wrap by (assumption || lia).
    change (exact_packet_time 18 14) with 30712. apply wrap_small; [assumption|lia]. }
  rewrite Ht in Hs. change (Z.quot (100000 - 30712) 1000) with 69 in Hs.
  split; assumption.
Qed.

(** * The claims *)

(** C1 (as amended). For two counters between 0 and 32 whose packet time
    [4000 + 312 + 9984 + 688 * onesCount + 288 * zeroesCount] fits an [int],
    the value returned is a number of milliseconds: the time left in the
    100000 us period, divided by 1000 and rounded toward zero. *)
Theorem residualDelay_milliseconds (w o z : Z) :
  16 <= w -> 0 <= o <= 32 -> 0 <= z <= 32 ->
  exact_packet_time o z <= max_int w ->
  exact_packet_time o z = 4000 + 312 + 9984 + 688 * o + 288 * z
  /\ total_packet_time w o z = exact_packet_time o z
  /\ residualDelay w o z = Some (Z.quot (100000 - exact_packet_time o z) 1000).
Proof.
  intros Hw Ho Hz Hfit.
  pose proof (exact_packet_time_range o z Ho Hz) as Hr.
  pose proof (pow2_ge_15 w Hw) as Hp. change (2 ^ 15) with 32768 in Hp.
  assert (Ht : total_packet_time w o z = exact_packet_time o z).
  { rewrite total_packet_time_wrap by assumption.
    apply wrap_id; [lia|]. unfold min_int, max_int in *. lia. }
  split; [unfold exact_packet_time; lia|]. split; [assumption|].
  destruct (residualDelay_quot w o z Hw Ho Hz) as [H _].
  rewrite H, Ht. reflexivity.
Qed.

Lemma residualDelay_milliseconds_witness :
  16 <= 16 /\ 0 <= 18 <= 32 /\ 0 <= 14 <= 32 /\ exact_packet_time 18 14 <= max_int 16
  /\ residualDelay 16 18 14 = Some (Z.quot (100000 - exact_packet_time 18 14) 1000).
Proof.
  assert (H1 : 16 <= 16) by lia.
  assert (H2 : 0 <= 18 <= 32) by lia.
  assert (H3 : 0 <= 14 <= 32) by lia.
  assert (H4 : exact_packet_time 18 14 <= max_int 16) by (vm_compute; discriminate).
  refine (conj H1 (conj H2 (conj H3 (conj H4 _)))).
  exact (proj2 (proj2 (residualDelay_milliseconds 16 18 14 H1 H2 H3 H4))).
Defined.

(** C1 (as stated) fails: for no one bit and 32 zero bits the value returned
    is 76, on 16 and on 32 bits, and not [100000 - 23512]. *)
Lemma residualDelay_not_microseconds :
  residualDelay 16 0 32 = Some 76 /\ residualDelay 32 0 32 = Some 76
  /\ 76 <> 100000 - (4000 + 312 + 9984 + 688 * 0 + 288 * 32).
Proof. split; [|split]; [vm_compute; reflexivity..|lia]. Qed.

(** C2 (as amended). For the command (63, 63, 0, 63) the counters end at 18
    and 14, the packet time is 30712 us and the value returned is 69
    (milliseconds). *)
Theorem sendPacket_scenario_1 (w : Z) (n : nat) (m : machine) :
  16 <= w ->
  exists m' : machine,
    sendPacket w (77 + n) x3f x3f x00 x3f m = Done 69 m'
    /\ ones (sp m') = 18 /\ zeroes (sp m') = 14
    /\ total_packet_time w 18 14 = 30712.
Proof.
  intros Hw. destruct (scenario_1_returns w n m Hw) as [Hs Ht].
  eexists. split; [exact Hs|]. repeat split. exact Ht.
Qed.

Lemma sendPacket_scenario_1_witness :
  16 <= 16 /\
  exists m' : machine,
    sendPacket 16 77 x3f x3f x00 x3f initial_machine = Done 69 m'
    /\ ones (sp m') = 18 /\ zeroes (sp m') = 14
    /\ total_packet_time 16 18 14 = 30712.
Proof.
  assert (H : 16 <= 16) by lia.
  split; [exact H|].
  exact (sendPacket_scenario_1 16 0 initial_machine H).
Defined.

(** C2 (as stated) fails: the value returned for (63, 63, 0, 63) is 69 and
    not 69288. *)
Lemma sendPacket_scenario_1_not_69288 :
  (exists m' : machine, sendPacket 16 77 x3f x3f x00 x3f initial_machine = Done 69 m')
  /\ (exists m' : machine, sendPacket 32 77 x3f x3f x00 x3f initial_machine = Done 69 m')
  /\ 69 <> 100000 - 30712.
Proof.
  split; [|split]; [| |lia].
  - eexists. exact (proj1 (scenario_1_returns 16 0 initial_machine ltac:(lia))).
  - eexists. exact (proj1 (scenario_1_returns 32 0 initial_machine ltac:(lia))).
Qed.

(** C3. Whatever the command, [sendPacket] sends 32 bit symbols, counted as
    ones and zeroes that add up to 32, between a header of 77 carrier
    cycles followed by its fixed low time and a footer of 12 carrier
    cycles. *)
Theorem sendPacket_frame (w : Z) (n : nat) (yaw pitch throttle trim : byte) (m : machine) :
  16 <= w ->
  exists (r : Z) (m' : machine) (bits : list bool),
    sendPacket w (77 + n) yaw pitch throttle trim m = Done r m'
    /\ output m' = output m ++ [DigitalWrite STATUS HIGH]
                     ++ (carrier_burst 77 ++ [DelayMicroseconds HEADER_DELAY])
                     ++ concat (map symbol bits)
                     ++ carrier_burst 12 ++ [DigitalWrite STATUS LOW]
    /\ length bits = 32%nat
    /\ ones (sp m') = count_bits true bits
    /\ zeroes (sp m') = count_bits false bits
    /\ ones (sp m') + zeroes (sp m') = 32
    /\ header w (77 + n) m
       = Done tt (emit (carrier_burst 77 ++ [DelayMicroseconds HEADER_DELAY]) m)
    /\ footer w (12 + n) m = Done tt (emit (carrier_burst 12) m).
Proof.
  intros Hw.
  destruct (sendPacket_returns w n yaw pitch throttle trim m Hw) as [Hs _].
  destruct (packet_counts yaw pitch throttle trim) as [Hl [Hsum _]].
  eexists. eexists. exists (packet_bits yaw pitch throttle trim).
  split; [exact Hs|].
  split; [reflexivity|]. split; [exact Hl|]. split; [reflexivity|].
  split; [reflexivity|]. split; [exact Hsum|].
  split; [now apply header_burst | now apply footer_burst].
Qed.

Lemma sendPacket_frame_witness :
  16 <= 16 /\
  exists (r : Z) (m' : machine) (bits : list bool),
    sendPacket 16 77 xff x00 xa5 x3f initial_machine = Done r m'
    /\ output m' = output initial_machine ++ [DigitalWrite STATUS HIGH]
                     ++ (carrier_burst 77 ++ [DelayMicroseconds HEADER_DELAY])
                     ++ concat (map symbol bits)
                     ++ carrier_burst 12 ++ [DigitalWrite STATUS LOW]
    /\ length bits = 32%nat
    /\ ones (sp m') = count_bits true bits
    /\ zeroes (sp m') = count_bits false bits
    /\ ones (sp m') + zeroes (sp m') = 32
    /\ header 16 77 initial_machine
       = Done tt (emit (carrier_burst 77 ++ [DelayMicroseconds HEADER_DELAY]) initial_machine)
    /\ footer 16 12 initial_machine = Done tt (emit (carrier_burst 12) initial_machine).
Proof.
  assert (H : 16 <= 16) by lia.
  split; [exact H|].
  exact (sendPacket_frame 16 0 xff x00 xa5 x3f initial_machine H).
Defined.

(** C4. Whatever the command, a receiver that reads the signal sent by
    [sendPacket] (header, 32 low times told apart as 688 us or 288 us, most
    significant bit first, footer) gets back the four bytes, in the order
    yaw, pitch, throttle, trim. *)
Theorem decode_sendPacket (w : Z) (n : nat) (yaw pitch throttle trim : byte) (m : machine) :
  16 <= w ->
  exists (r : Z) (m' : machine) (sent : list event),
    sendPacket w (77 + n) yaw pitch throttle trim m = Done r m'
    /\ output m' = output m ++ sent
    /\ decode sent = Some (mkByte4 yaw pitch throttle trim).
Proof.
  intros Hw.
  destruct (sendPacket_returns w n yaw pitch throttle trim m Hw) as [Hs _].
  eexists. eexists. exists (packet_events yaw pitch throttle trim).
  split; [exact Hs|]. split; [reflexivity|]. apply decode_packet_events.
Qed.

Lemma decode_sendPacket_witness :
  16 <= 16 /\
  exists (r : Z) (m' : machine) (sent : list event),
    sendPacket 16 77 x3f x40 xff x01 initial_machine = Done r m'
    /\ output m' = output initial_machine ++ sent
    /\ decode sent = Some (mkByte4 x3f x40 xff x01).
Proof.
  assert (H : 16 <= 16) by lia.
  split; [exact H|].
  exact (decode_sendPacket 16 0 x3f x40 xff x01 initial_machine H).
Defined.



(** Where the packet time fits the [int], for counters between 0 and 32,
    the delay returned does not grow with the number of ones, the number of
    zeroes being fixed. *)
Theorem residualDelay_monotone (w a b z : Z) :
  16 <= w -> 0 <= a -> a <= b -> b <= 32 -> 0 <= z <= 32 ->
  exact_packet_time b z <= max_int w ->
  exists ra rb : Z,
    residualDelay w a z = Some ra /\ residualDelay w b z = Some rb /\ rb <= ra.
Proof.
  intros Hw Ha Hab Hb Hz Hfit.
  assert (Hfit' : exact_packet_time a z <= max_int w)
    by (unfold exact_packet_time in *; lia).
  pose proof (pow2_ge_15 w Hw) as Hp. change (2 ^ 15) with 32768 in Hp.
  pose proof (exact_packet_time_range a z ltac:(lia) Hz) as Hra.
  pose proof (exact_packet_time_range b z ltac:(lia) Hz) as Hrb.
  destruct (residualDelay_quot w a z Hw ltac:(lia) Hz) as [Ea _].
  destruct (residualDelay_quot w b z Hw ltac:(lia) Hz) as [Eb _].
  rewrite total_packet_time_wrap in Ea, Eb by (assumption || lia).
  rewrite wrap_id in Ea by (unfold min_int, max_int in *; lia).
  rewrite wrap_id in Eb by (unfold min_int, max_int in *; lia).
  eexists. eexists. split; [exact Ea|]. split; [exact Eb|].
  apply Z.quot_le_mono; [lia|]. unfold exact_packet_time. lia.
Qed.

Lemma residualDelay_monotone_witness :
  16 <= 16 /\ 0 <= 3 /\ 3 <= 20 /\ 20 <= 32 /\ 0 <= 12 <= 32
  /\ exact_packet_time 20 12 <= max_int 16
  /\ exists ra rb : Z,
       residualDelay 16 3 12 = Some ra /\ residualDelay 16 20 12 = Some rb /\ rb <= ra.
Proof.
  assert (H1 : 16 <= 16) by lia.
  assert (H2 : 0 <= 3) by lia.
  assert (H3 : 3 <= 20) by lia.
  assert (H4 : 20 <= 32) by lia.
  assert (H5 : 0 <= 12 <= 32) by lia.
  assert (H6 : exact_packet_time 20 12 <= max_int 16) by (vm_compute; discriminate).
  refine (conj H1 (conj H2 (conj H3 (conj H4 (conj H5 (conj H6 _)))))).
  exact (residualDelay_monotone 16 3 20 12 H1 H2 H3 H4 H5 H6).
Defined.

(** C6, where the code breaks it.  On a 16-bit [int] the command
    (255, 255, 255, 0), with 24 ones and 8 zeroes, has a packet time of
    33112 us, above the largest [int], 32767; the [int] sum comes out as
    -32424 and [sendPacket] returns 132, where the time left in the period
    is 66 ms.  That is more than the 67 returned for the command
    (255, 255, 254, 0), with 23 ones (and 9 zeroes), and more than the 67
    that the same arithmetic gives for 23 ones and the same 8 zeroes. *)
Theorem sendPacket_overflow_breaks_order (n : nat) (m : machine) :
  exists m1 m2 : machine,
    sendPacket 16 (77 + n) xff xff xfe x00 m = Done 67 m1
    /\ ones (sp m1) = 23 /\ zeroes (sp m1) = 9
    /\ sendPacket 16 (77 + n) xff xff xff x00 m = Done 132 m2
    /\ ones (sp m2) = 24 /\ zeroes (sp m2) = 8
    /\ exact_packet_time 24 8 = 33112
    /\ max_int 16 = 32767
    /\ total_packet_time 16 24 8 = -32424
    /\ Z.quot (100000 - exact_packet_time 24 8) 1000 = 66
    /\ residualDelay 16 23 8 = Some 67
    /\ residualDelay 16 24 8 = Some 132
    /\ ~ 132 <= 67.
Proof.
  assert (Hw : 16 <= 16) by lia.
  destruct (sendPacket_returns 16 n xff xff xfe x00 m Hw) as [Ha _].
  destruct (sendPacket_returns 16 n xff xff xff x00 m Hw) as [Hb _].
  change (count_bits true (packet_bits xff xff xfe x00)) with 23 in Ha.
  change (count_bits false (packet_bits xff xff xfe x00)) with 9 in Ha.
  change (count_bits true (packet_bits xff xff xff x00)) with 24 in Hb.
  change (count_bits false (packet_bits xff xff xff x00)) with 8 in Hb.
  change (Z.quot (100000 - total_packet_time 16 23 9) 1000) with 67 in Ha.
  change (Z.quot (100000 - total_packet_time 16 24 8) 1000) with 132 in Hb.
  eexists. eexists. split; [exact Ha|].
  split; [reflexivity|]. split; [reflexivity|].
  split; [exact Hb|].
  split; [reflexivity|]. split; [reflexivity|].
  split; [reflexivity|]. split; [reflexivity|]. split; [reflexivity|].
  split; [reflexivity|].
  split; [vm_compute; reflexivity|]. split; [vm_compute; reflexivity|lia].
Qed.

(** C7. The serial-read step takes bytes only when at least four are
    waiting; it then takes exactly four, and they are sent next as yaw,
    pitch, throttle and trim.  With fewer than four bytes waiting it takes
    none, and the command sent is the one of before. *)
Theorem pollUpdate_four_or_none (w : Z) (n : nat) (m : machine) :
  16 <= w ->
  (forall (yaw pitch throttle trim : byte) (rest : list byte),
      serial_rx m = yaw :: pitch :: throttle :: trim :: rest ->
      pollUpdate w (4 + n) m
      = Done tt (mkMachine (mkByte4 yaw pitch throttle trim) (sp m) rest (output m))
      /\ exists (r : Z) (m' : machine),
           loop_iteration w (77 + n) m = Done tt m'
           /\ serial_rx m' = rest
           /\ output m' = output m ++ packet_events yaw pitch throttle trim
                            ++ [Delay r; SerialWrite READY_TO_ACCEPT_ACK])
  /\ ((length (serial_rx m) < 4)%nat ->
      pollUpdate w (4 + n) m = Done tt m
      /\ exists (r : Z) (m' : machine),
           loop_iteration w (77 + n) m = Done tt m'
           /\ serial_rx m' = serial_rx m
           /\ command m' = command m
           /\ output m' = output m
                            ++ packet_events (elt0 (command m)) (elt1 (command m))
                                             (elt2 (command m)) (elt3 (command m))
                            ++ [Delay r; SerialWrite READY_TO_ACCEPT_ACK]).
Proof.
  intros Hw. split.
  - intros yaw pitch throttle trim rest Hrx.
    assert (Hp : polled m = mkMachine (mkByte4 yaw pitch throttle trim) (sp m) rest (output m))
      by (unfold polled; now rewrite Hrx).
    split; [now rewrite pollUpdate_polled, Hp|].
    pose proof (loop_iteration_spec w n m Hw) as Hl. cbv zeta in Hl.
    rewrite Hp in Hl. cbn [command serial_rx elt0 elt1 elt2 elt3] in Hl.
    eexists. eexists. split; [exact Hl|]. split; reflexivity.
  - intros Hlen.
    assert (Hp : polled m = m).
    { unfold polled. destruct (serial_rx m) as [|y [|p [|t [|tr rest]]]]; try reflexivity.
      simpl in Hlen. lia. }
    split; [now rewrite pollUpdate_polled, Hp|].
    pose proof (loop_iteration_spec w n m Hw) as Hl. cbv zeta in Hl.
    rewrite Hp in Hl.
    eexists. eexists. split; [exact Hl|]. repeat split.
Qed.

Lemma pollUpdate_four_or_none_witness :
  16 <= 16
  /\ pollUpdate 16 4 (mkMachine (command initial_machine) (sp initial_machine)
                                [x01; x02; x03; x04; x05] [])
     = Done tt (mkMachine (mkByte4 x01 x02 x03 x04) (sp initial_machine) [x05] [])
  /\ ((length [x01; x02] < 4)%nat
      /\ pollUpdate 16 4 (mkMachine (command initial_machine) (sp initial_machine)
                                    [x01; x02] [])
         = Done tt (mkMachine (command initial_machine) (sp initial_machine) [x01; x02] [])).
Proof.
  assert (H : 16 <= 16) by lia.
  assert (Hlen : (length [x01; x02] < 4)%nat) by (simpl; lia).
  refine (conj H (conj _ (conj Hlen _))).
  - exact (proj1 (proj1 (pollUpdate_four_or_none 16 0
             (mkMachine (command initial_machine) (sp initial_machine)
                        [x01; x02; x03; x04; x05] []) H)
             x01 x02 x03 x04 [x05] eq_refl)).
  - exact (proj1 (proj2 (pollUpdate_four_or_none 16 0
             (mkMachine (command initial_machine) (sp initial_machine) [x01; x02] []) H)
             Hlen)).
Defined.

(** C8. Whatever the command, the packet time that [sendPacket] computes is
    at most 36312 us, hence below the period of 100000 us, and the delay it
    returns is strictly positive. *)
Theorem sendPacket_delay_positive (w : Z) (n : nat) (yaw pitch throttle trim : byte)
        (m : machine) :
  16 <= w ->
  exists (r : Z) (m' : machine),
    sendPacket w (77 + n) yaw pitch throttle trim m = Done r m'
    /\ total_packet_time w (ones (sp m')) (zeroes (sp m')) <= 36312
    /\ total_packet_time w (ones (sp m')) (zeroes (sp m')) < 100000
    /\ exact_packet_time (ones (sp m')) (zeroes (sp m')) <= 36312
    /\ 0 < r.
Proof.
  intros Hw.
  destruct (sendPacket_returns w n yaw pitch throttle trim m Hw) as [Hs [Ht Hr]].
  destruct (packet_counts yaw pitch throttle trim) as [_ [Hsum [Ho Hz]]].
  eexists. eexists. split; [exact Hs|].
  cbn [sp final_statics ones zeroes].
  split; [exact Ht|]. split; [lia|]. split; [unfold exact_packet_time; lia|lia].
Qed.

Lemma sendPacket_delay_positive_witness :
  16 <= 16 /\
  exists (r : Z) (m' : machine),
    sendPacket 16 77 xff xff xff xff initial_machine = Done r m'
    /\ total_packet_time 16 (ones (sp m')) (zeroes (sp m')) <= 36312
    /\ total_packet_time 16 (ones (sp m')) (zeroes (sp m')) < 100000
    /\ exact_packet_time (ones (sp m')) (zeroes (sp m')) <= 36312
    /\ 0 < r.
Proof.
  assert (H : 16 <= 16) by lia.
  split; [exact H|].
  exact (sendPacket_delay_positive 16 0 xff xff xff xff initial_machine H).
Defined.

(** C9. Two calls of [sendPacket] in a row with the same command hand the
    same events to the Arduino core and return the same delay, from any
    state of the statics; the second call leaves the statics as the first
    did. *)
Theorem sendPacket_repeatable (w : Z) (n : nat) (yaw pitch throttle trim : byte)
        (m : machine) :
  16 <= w ->
  exists (r : Z) (m1 m2 : machine) (sent : list event),
    sendPacket w (77 + n) yaw pitch throttle trim m = Done r m1
    /\ sendPacket w (77 + n) yaw pitch throttle trim m1 = Done r m2
    /\ output m1 = output m ++ sent
    /\ output m2 = output m1 ++ sent
    /\ sp m2 = sp m1.
Proof.
  intros Hw.
  destruct (sendPacket_returns w n yaw pitch throttle trim m Hw) as [Hs _].
  eexists. eexists. eexists. exists (packet_events yaw pitch throttle trim).
  split; [exact Hs|].
  split; [apply (sendPacket_returns w n yaw pitch throttle trim _ Hw)|].
  repeat split.
Qed.

Lemma sendPacket_repeatable_witness :
  16 <= 16 /\
  exists (r : Z) (m1 m2 : machine) (sent : list event),
    sendPacket 16 77 x3f x3f x7f x3f initial_machine = Done r m1
    /\ sendPacket 16 77 x3f x3f x7f x3f m1 = Done r m2
    /\ output m1 = output initial_machine ++ sent
    /\ output m2 = output m1 ++ sent
    /\ sp m2 = sp m1.
Proof.
  assert (H : 16 <= 16) by lia.
  split; [exact H|].
  exact (sendPacket_repeatable 16 0 x3f x3f x7f x3f initial_machine H).
Defined.

(** C10. [pulse] ends on every [int]: with fuel for [cycles] iterations it
    has sent exactly [max(cycles, 0)] carrier cycles, and on an input that
    is not positive (any [min(cycles, 0)]) it sends nothing, whatever the
    fuel. *)
Theorem pulse_cycles (w cycles : Z) (n : nat) (m : machine) :
  16 <= w -> min_int w <= cycles <= max_int w ->
  pulse w (Z.to_nat cycles + n) cycles m
  = Done tt (emit (carrier_burst (Z.to_nat (Z.max cycles 0))) m)
  /\ carrier_burst (Z.to_nat (Z.max cycles 0))
     = concat (repeat carrier_cycle (Z.to_nat (Z.max cycles 0)))
  /\ (forall fuel : nat, pulse w fuel (Z.min cycles 0) m = Done tt m).
Proof.
  intros Hw Hc. split; [|split].
  - destruct (Z_le_gt_dec cycles 0) as [Hle|Hgt].
    + rewrite pulse_nonpositive by assumption.
      rewrite Z.max_r by assumption. simpl. now rewrite emit_nil.
    + rewrite Z.max_l by lia.
      rewrite <- (Z2Nat.id cycles) at 2 by lia.
      apply pulse_burst; [assumption|]. rewrite Z2Nat.id by lia. lia.
  - induction (Z.to_nat (Z.max cycles 0)) as [|k IH]; [reflexivity|].
    cbn [carrier_burst repeat concat]. now rewrite IH.
  - intros fuel. apply pulse_nonpositive. lia.
Qed.

Lemma pulse_cycles_witness :
  16 <= 16 /\ min_int 16 <= 12 <= max_int 16
  /\ pulse 16 12 12 initial_machine = Done tt (emit (carrier_burst 12) initial_machine).
Proof.
  assert (H1 : 16 <= 16) by lia.
  assert (H2 : min_int 16 <= 12 <= max_int 16) by (vm_compute; split; discriminate).
  refine (conj H1 (conj H2 _)).
  exact (proj1 (pulse_cycles 16 12 0 initial_machine H1 H2)).
Defined.

(** * Further properties of the sketch *)

(** ** The time taken by a packet *)

Lemma signal_time_app (a b : list event) :
  signal_time (a ++ b) = signal_time a + signal_time b.
Proof. induction a as [|e a IH]; cbn [app signal_time]; lia. Qed.

Lemma signal_time_burst (n : nat) : signal_time (carrier_burst n) = 26 * Z.of_nat n.
Proof.
  induction n as [|n IH]; [reflexivity|].
  cbn [carrier_burst]. rewrite signal_time_app, IH.
  change (signal_time carrier_cycle) with 26. lia.
Qed.

Lemma signal_time_symbol (bit : bool) :
  signal_time (symbol bit) = 312 + (if bit then 688 else 288).
Proof.
  unfold symbol. rewrite signal_time_app, signal_time_burst.
  destruct bit; reflexivity.
Qed.

Lemma signal_time_symbols (bits : list bool) :
  signal_time (concat (map symbol bits))
  = 312 * Z.of_nat (length bits) + 688 * count_bits true bits + 288 * count_bits false bits.
Proof.
  induction bits as [|b bits IH]; [reflexivity|].
  cbn [map concat]. rewrite signal_time_app, signal_time_symbol, IH, !count_bits_cons.
  cbn [length]. destruct b; cbn [Bool.eqb Z.b2z]; lia.
Qed.

Lemma signal_time_packet (yaw pitch throttle trim : byte) :
  signal_time (packet_events yaw pitch throttle trim)
  = exact_packet_time (count_bits true (packet_bits yaw pitch throttle trim))
                      (count_bits false (packet_bits yaw pitch throttle trim)).
Proof.
  destruct (packet_counts yaw pitch throttle trim) as [Hl _].
  unfold packet_events, header_events, footer_events.
  rewrite !signal_time_app, signal_time_symbols, !signal_time_burst, Hl.
  unfold exact_packet_time.
  change (signal_time [DigitalWrite STATUS HIGH]) with 0.
  change (signal_time [DigitalWrite STATUS LOW]) with 0.
  change (signal_time [DelayMicroseconds HEADER_DELAY]) with 1998.
  change (Z.of_nat 77) with 77. change (Z.of_nat 12) with 12.
  change (Z.of_nat 32) with 32. lia.
Qed.

(** The packet time fits the [int]: the sum of [sendPacket] is then exact. *)
Lemma total_packet_time_exact (w o z : Z) :
  16 <= w -> 0 <= o <= 32 -> 0 <= z <= 32 -> exact_packet_time o z <= max_int w ->
  total_packet_time w o z = exact_packet_time o z.
Proof.
  intros Hw Ho Hz Hfit.
  pose proof (exact_packet_time_range o z Ho Hz) as Hr.
  rewrite total_packet_time_wrap by assumption.
  apply wrap_id; [lia|]. unfold min_int, max_int in *.
  pose proof (pow2_ge_15 w Hw). lia.
Qed.

(** X1. The time that the signal of a packet takes on the LED pin (3 us for
    each write, as the sketch's comments say, plus the delays) is the packet
    time of the sketch's arithmetic: 23512 us plus 400 us for each one
    bit. *)
Theorem sendPacket_signal_time (w : Z) (n : nat) (yaw pitch throttle trim : byte)
        (m : machine) :
  16 <= w ->
  exists (r : Z) (m' : machine) (sent : list event),
    sendPacket w (77 + n) yaw pitch throttle trim m = Done r m'
    /\ output m' = output m ++ sent
    /\ signal_time sent = exact_packet_time (ones (sp m')) (zeroes (sp m'))
    /\ signal_time sent = 23512 + 400 * ones (sp m').
Proof.
  intros Hw.
  destruct (sendPacket_returns w n yaw pitch throttle trim m Hw) as [Hs _].
  destruct (packet_counts yaw pitch throttle trim) as [_ [Hsum _]].
  eexists. eexists. exists (packet_events yaw pitch throttle trim).
  split; [exact Hs|]. split; [reflexivity|].
  cbn [sp final_statics ones zeroes]. rewrite signal_time_packet.
  split; [reflexivity|]. unfold exact_packet_time. lia.
Qed.

Lemma sendPacket_signal_time_witness :
  16 <= 16 /\
  exists (r : Z) (m' : machine) (sent : list event),
    sendPacket 16 77 x7f x00 x55 x3f initial_machine = Done r m'
    /\ output m' = output initial_machine ++ sent
    /\ signal_time sent = exact_packet_time (ones (sp m')) (zeroes (sp m'))
    /\ signal_time sent = 23512 + 400 * ones (sp m').
Proof.
  assert (H : 16 <= 16) by lia.
  split; [exact H|].
  exact (sendPacket_signal_time 16 0 x7f x00 x55 x3f initial_machine H).
Defined.

(** The delay returned, by the number of one bits, where the sum fits. *)
Lemma delay_for_fits (w : Z) (c : byte4) :
  16 <= w ->
  exact_packet_time (ones_of c) (32 - ones_of c) <= max_int w ->
  delay_for w c = Z.quot (76488 - 400 * ones_of c) 1000
  /\ 0 <= ones_of c <= 32
  /\ count_bits false (command_bits c) = 32 - ones_of c.
Proof.
  intros Hw Hfit. unfold delay_for, ones_of in *. unfold command_bits in *.
  destruct (packet_counts (elt0 c) (elt1 c) (elt2 c) (elt3 c)) as [_ [Hsum [Ho Hz]]].
  set (o := count_bits true (packet_bits (elt0 c) (elt1 c) (elt2 c) (elt3 c))) in *.
  set (z := count_bits false (packet_bits (elt0 c) (elt1 c) (elt2 c) (elt3 c))) in *.
  assert (Ez : z = 32 - o) by lia.
  split; [|split; [assumption|assumption]].
  rewrite total_packet_time_exact; try assumption.
  - f_equal. unfold exact_packet_time. lia.
  - rewrite Ez. exact Hfit.
Qed.

(** [sendPacket] on a command held as an array. *)
Lemma sendPacket_delay_for (w : Z) (n : nat) (c : byte4) (m : machine) :
  16 <= w ->
  sendPacket w (77 + n) (elt0 c) (elt1 c) (elt2 c) (elt3 c) m
  = Done (delay_for w c)
         (mkMachine (command m) (final_statics (elt0 c) (elt1 c) (elt2 c) (elt3 c))
                    (serial_rx m)
                    (output m ++ packet_events (elt0 c) (elt1 c) (elt2 c) (elt3 c))).
Proof.
  intros Hw. exact (proj1 (sendPacket_returns w n (elt0 c) (elt1 c) (elt2 c) (elt3 c) m Hw)).
Qed.

(** X2. Where the packet time fits the [int], the delay that [sendPacket]
    returns depends on the command through its number of one bits only: it
    is [(76488 - 400 * ones) / 1000] rounded down, between 63 and 76. *)
Theorem sendPacket_delay_by_ones (w : Z) (n : nat) (c : byte4) (m : machine) :
  16 <= w ->
  exact_packet_time (ones_of c) (32 - ones_of c) <= max_int w ->
  exists m' : machine,
    sendPacket w (77 + n) (elt0 c) (elt1 c) (elt2 c) (elt3 c) m
    = Done (Z.quot (76488 - 400 * ones_of c) 1000) m'
    /\ ones (sp m') = ones_of c
    /\ 63 <= Z.quot (76488 - 400 * ones_of c) 1000 <= 76.
Proof.
  intros Hw Hfit.
  destruct (delay_for_fits w c Hw Hfit) as [Hd [Ho _]].
  rewrite sendPacket_delay_for by assumption. rewrite Hd.
  eexists. split; [reflexivity|]. split; [reflexivity|].
  rewrite Z.quot_div_nonneg by lia.
  assert (H1 : 63 <= (76488 - 400 * ones_of c) / 1000) by (apply Z.div_le_lower_bound; lia).
  assert (H2 : (76488 - 400 * ones_of c) / 1000 < 77) by (apply Z.div_lt_upper_bound; lia).
  lia.
Qed.

Lemma sendPacket_delay_by_ones_witness :
  16 <= 16
  /\ exact_packet_time (ones_of (mkByte4 x3f x3f x20 x3f))
                       (32 - ones_of (mkByte4 x3f x3f x20 x3f)) <= max_int 16
  /\ exists m' : machine,
       sendPacket 16 77 x3f x3f x20 x3f initial_machine
       = Done (Z.quot (76488 - 400 * ones_of (mkByte4 x3f x3f x20 x3f)) 1000) m'
       /\ ones (sp m') = ones_of (mkByte4 x3f x3f x20 x3f)
       /\ 63 <= Z.quot (76488 - 400 * ones_of (mkByte4 x3f x3f x20 x3f)) 1000 <= 76.
Proof.
  assert (H1 : 16 <= 16) by lia.
  assert (H2 : exact_packet_time (ones_of (mkByte4 x3f x3f x20 x3f))
                                 (32 - ones_of (mkByte4 x3f x3f x20 x3f)) <= max_int 16)
    by (vm_compute; discriminate).
  refine (conj H1 (conj H2 _)).
  exact (sendPacket_delay_by_ones 16 0 (mkByte4 x3f x3f x20 x3f) initial_machine H1 H2).
Defined.

(** X3. On a 16-bit [int] the sum of the packet time overflows for every
    command with 24 one bits or more: the sum comes out 65536 too small,
    hence negative, and the delay returned is
    [(142024 - 400 * ones) / 1000], between 129 and 132. *)
Theorem sendPacket_delay_overflow_16 (n : nat) (c : byte4) (m : machine) :
  24 <= ones_of c ->
  exists m' : machine,
    sendPacket 16 (77 + n) (elt0 c) (elt1 c) (elt2 c) (elt3 c) m
    = Done (Z.quot (142024 - 400 * ones_of c) 1000) m'
    /\ total_packet_time 16 (ones (sp m')) (zeroes (sp m'))
       = exact_packet_time (ones (sp m')) (zeroes (sp m')) - 65536
    /\ total_packet_time 16 (ones (sp m')) (zeroes (sp m')) < 0
    /\ 129 <= Z.quot (142024 - 400 * ones_of c) 1000 <= 132.
Proof.
  intros H24.
  assert (Hw : 16 <= 16) by lia.
  rewrite sendPacket_delay_for by assumption.
  unfold delay_for, ones_of in *. unfold command_bits in *.
  destruct (packet_counts (elt0 c) (elt1 c) (elt2 c) (elt3 c)) as [_ [Hsum [Ho Hz]]].
  cbn [sp final_statics ones zeroes].
  set (o := count_bits true (packet_bits (elt0 c) (elt1 c) (elt2 c) (elt3 c))) in *.
  set (z := count_bits false (packet_bits (elt0 c) (elt1 c) (elt2 c) (elt3 c))) in *.
  assert (He : exact_packet_time o z = 23512 + 400 * o) by (unfold exact_packet_time; lia).
  assert (Ht : total_packet_time 16 o z = exact_packet_time o z - 65536).
  { rewrite total_packet_time_wrap by assumption.
    destruct (wrap_packet_time 16 (exact_packet_time o z) Hw) as [[_ H]|[_ [_ H]]].
    - lia.
    - unfold max_int in H. change (2 ^ (16 - 1)) with 32768 in H. lia.
    - exact H. }
  rewrite Ht, He.
  replace (100000 - (23512 + 400 * o - 65536)) with (142024 - 400 * o) by lia.
  eexists. split; [reflexivity|]. cbn [sp ones zeroes final_statics]. fold o. fold z.
  rewrite Ht, He. split; [reflexivity|]. split; [lia|].
  rewrite Z.quot_div_nonneg by lia.
  assert (H1 : 129 <= (142024 - 400 * o) / 1000) by (apply Z.div_le_lower_bound; lia).
  assert (H2 : (142024 - 400 * o) / 1000 < 133) by (apply Z.div_lt_upper_bound; lia).
  lia.
Qed.

Lemma sendPacket_delay_overflow_16_witness :
  24 <= ones_of (mkByte4 x3f x3f x7f x3f)
  /\ exists m' : machine,
       sendPacket 16 77 x3f x3f x7f x3f initial_machine
       = Done (Z.quot (142024 - 400 * ones_of (mkByte4 x3f x3f x7f x3f)) 1000) m'
       /\ total_packet_time 16 (ones (sp m')) (zeroes (sp m'))
          = exact_packet_time (ones (sp m')) (zeroes (sp m')) - 65536
       /\ total_packet_time 16 (ones (sp m')) (zeroes (sp m')) < 0
       /\ 129 <= Z.quot (142024 - 400 * ones_of (mkByte4 x3f x3f x7f x3f)) 1000 <= 132.
Proof.
  assert (H : 24 <= ones_of (mkByte4 x3f x3f x7f x3f)) by (vm_compute; discriminate).
  refine (conj H _).
  exact (sendPacket_delay_overflow_16 0 (mkByte4 x3f x3f x7f x3f) initial_machine H).
Defined.

(** X4. Where the packet time fits the [int], the time of the signal and
    the delay returned (in milliseconds) fill the period of 100000 us to
    within one millisecond, and never exceed it. *)
Theorem packet_and_delay_fill_period (w : Z) (n : nat) (c : byte4) (m : machine) :
  16 <= w ->
  exact_packet_time (ones_of c) (32 - ones_of c) <= max_int w ->
  exists (r : Z) (m' : machine) (sent : list event),
    sendPacket w (77 + n) (elt0 c) (elt1 c) (elt2 c) (elt3 c) m = Done r m'
    /\ output m' = output m ++ sent
    /\ 99000 < signal_time sent + 1000 * r <= 100000.
Proof.
  intros Hw Hfit.
  destruct (delay_for_fits w c Hw Hfit) as [Hd [Ho Hz]].
  rewrite sendPacket_delay_for by assumption. rewrite Hd.
  eexists. eexists. exists (packet_events (elt0 c) (elt1 c) (elt2 c) (elt3 c)).
  split; [reflexivity|]. split; [reflexivity|].
  rewrite signal_time_packet. fold (command_bits c). fold (ones_of c). rewrite Hz.
  replace (exact_packet_time (ones_of c) (32 - ones_of c)) with (23512 + 400 * ones_of c)
    by (unfold exact_packet_time; lia).
  rewrite Z.quot_div_nonneg by lia.
  pose proof (Z.mul_div_le (76488 - 400 * ones_of c) 1000 ltac:(lia)).
  pose proof (Z.mul_succ_div_gt (76488 - 400 * ones_of c) 1000 ltac:(lia)).
  lia.
Qed.

Lemma packet_and_delay_fill_period_witness :
  16 <= 16
  /\ exact_packet_time (ones_of (mkByte4 x3f x3f x20 x3f))
                       (32 - ones_of (mkByte4 x3f x3f x20 x3f)) <= max_int 16
  /\ exists (r : Z) (m' : machine) (sent : list event),
       sendPacket 16 77 x3f x3f x20 x3f initial_machine = Done r m'
       /\ output m' = output initial_machine ++ sent
       /\ 99000 < signal_time sent + 1000 * r <= 100000.
Proof.
  assert (H1 : 16 <= 16) by lia.
  assert (H2 : exact_packet_time (ones_of (mkByte4 x3f x3f x20 x3f))
                                 (32 - ones_of (mkByte4 x3f x3f x20 x3f)) <= max_int 16)
    by (vm_compute; discriminate).
  refine (conj H1 (conj H2 _)).
  exact (packet_and_delay_fill_period 16 0 (mkByte4 x3f x3f x20 x3f) initial_machine H1 H2).
Defined.

(** X5. Where the packet time fits the [int], a command with more one bits
    is never followed by a longer delay. *)
Theorem sendPacket_delay_antitone (w : Z) (n : nat) (c1 c2 : byte4) (m1 m2 : machine) :
  16 <= w ->
  ones_of c1 <= ones_of c2 ->
  exact_packet_time (ones_of c2) (32 - ones_of c2) <= max_int w ->
  exists (r1 r2 : Z) (m1' m2' : machine),
    sendPacket w (77 + n) (elt0 c1) (elt1 c1) (elt2 c1) (elt3 c1) m1 = Done r1 m1'
    /\ sendPacket w (77 + n) (elt0 c2) (elt1 c2) (elt2 c2) (elt3 c2) m2 = Done r2 m2'
    /\ r2 <= r1.
Proof.
  intros Hw Hle Hfit2.
  assert (Hfit1 : exact_packet_time (ones_of c1) (32 - ones_of c1) <= max_int w)
    by (unfold exact_packet_time in *; lia).
  destruct (delay_for_fits w c1 Hw Hfit1) as [Hd1 [Ho1 _]].
  destruct (delay_for_fits w c2 Hw Hfit2) as [Hd2 [Ho2 _]].
  rewrite !sendPacket_delay_for by assumption. rewrite Hd1, Hd2.
  eexists. eexists. eexists. eexists.
  split; [reflexivity|]. split; [reflexivity|].
  apply Z.quot_le_mono; lia.
Qed.

Lemma sendPacket_delay_antitone_witness :
  16 <= 16
  /\ ones_of (mkByte4 x00 x00 x00 x00) <= ones_of (mkByte4 x3f x3f x20 x3f)
  /\ exact_packet_time (ones_of (mkByte4 x3f x3f x20 x3f))
                       (32 - ones_of (mkByte4 x3f x3f x20 x3f)) <= max_int 16
  /\ exists (r1 r2 : Z) (m1' m2' : machine),
       sendPacket 16 77 x00 x00 x00 x00 initial_machine = Done r1 m1'
       /\ sendPacket 16 77 x3f x3f x20 x3f initial_machine = Done r2 m2'
       /\ r2 <= r1.
Proof.
  assert (H1 : 16 <= 16) by lia.
  assert (H2 : ones_of (mkByte4 x00 x00 x00 x00) <= ones_of (mkByte4 x3f x3f x20 x3f))
    by (vm_compute; discriminate).
  assert (H3 : exact_packet_time (ones_of (mkByte4 x3f x3f x20 x3f))
                                 (32 - ones_of (mkByte4 x3f x3f x20 x3f)) <= max_int 16)
    by (vm_compute; discriminate).
  refine (conj H1 (conj H2 (conj H3 _))).
  exact (sendPacket_delay_antitone 16 0 (mkByte4 x00 x00 x00 x00) (mkByte4 x3f x3f x20 x3f)
           initial_machine initial_machine H1 H2 H3).
Defined.

(** ** What a packet does to the pins, and to nothing else *)

(** A filter that lets no pin write and no microsecond delay through lets
    nothing of a packet through. *)
Lemma filter_packet_events (f : event -> bool) (yaw pitch throttle trim : byte) :
  (forall pin v, f (DigitalWrite pin v) = false) ->
  (forall us, f (DelayMicroseconds us) = false) ->
  filter f (packet_events yaw pitch throttle trim) = [].
Proof.
  intros Hpin Hus.
  assert (Hb : forall k, filter f (carrier_burst k) = []).
  { induction k as [|k IH]; [reflexivity|].
    cbn [carrier_burst carrier_cycle app filter]. now rewrite !Hpin, !Hus. }
  assert (Hs : forall bits, filter f (concat (map symbol bits)) = []).
  { induction bits as [|b bits IH]; [reflexivity|].
    cbn [map concat]. rewrite filter_app, IH. unfold symbol. rewrite filter_app, Hb.
    cbn [filter]. now rewrite Hus. }
  unfold packet_events, header_events, footer_events.
  rewrite !filter_app, !Hb, Hs. cbn [filter]. now rewrite !Hpin, Hus.
Qed.

(** X6. [sendPacket] only writes pins and waits microseconds: it calls
    neither [delay] nor the serial port, and it leaves the global [command]
    and the bytes waiting on the serial port as they were. *)
Theorem sendPacket_only_drives_pins (w : Z) (n : nat) (yaw pitch throttle trim : byte)
        (m : machine) :
  16 <= w ->
  exists (r : Z) (m' : machine) (sent : list event),
    sendPacket w (77 + n) yaw pitch throttle trim m = Done r m'
    /\ output m' = output m ++ sent
    /\ filter sleeps_or_writes sent = []
    /\ command m' = command m
    /\ serial_rx m' = serial_rx m.
Proof.
  intros Hw.
  destruct (sendPacket_returns w n yaw pitch throttle trim m Hw) as [Hs _].
  eexists. eexists. exists (packet_events yaw pitch throttle trim).
  split; [exact Hs|]. split; [reflexivity|].
  split; [now apply filter_packet_events|]. split; reflexivity.
Qed.

Lemma sendPacket_only_drives_pins_witness :
  16 <= 16 /\
  exists (r : Z) (m' : machine) (sent : list event),
    sendPacket 16 77 x3f x3f x00 x3f
               (mkMachine (command initial_machine) (sp initial_machine) [x01; x02] [])
    = Done r m'
    /\ output m' = [] ++ sent
    /\ filter sleeps_or_writes sent = []
    /\ command m' = command initial_machine
    /\ serial_rx m' = [x01; x02].
Proof.
  assert (H : 16 <= 16) by lia.
  split; [exact H|].
  exact (sendPacket_only_drives_pins 16 0 x3f x3f x00 x3f
           (mkMachine (command initial_machine) (sp initial_machine) [x01; x02] []) H).
Defined.

Lemma high_delays_burst (lvl : level) (k : nat) (rest : list event) :
  high_delays lvl (carrier_burst (S k) ++ rest)
  = repeat 10 (S k) ++ high_delays LOW rest.
Proof.
  revert lvl. induction k as [|k IH]; intros lvl.
  - destruct lvl; reflexivity.
  - change (carrier_burst (S (S k))) with (carrier_cycle ++ carrier_burst (S k)).
    rewrite <- app_assoc.
    change (high_delays lvl (carrier_cycle ++ carrier_burst (S k) ++ rest))
      with (10 :: high_delays LOW (carrier_burst (S k) ++ rest)).
    rewrite IH. reflexivity.
Qed.

Lemma high_delays_symbols (bits : list bool) (rest : list event) :
  high_delays LOW (concat (map symbol bits) ++ rest)
  = repeat 10 (12 * length bits) ++ high_delays LOW rest.
Proof.
  induction bits as [|b bits IH]; [reflexivity|].
  cbn [map concat length]. unfold symbol at 1. rewrite <- !app_assoc.
  rewrite high_delays_burst. cbn [app high_delays]. rewrite IH.
  replace (12 * S (length bits))%nat with (12 + 12 * length bits)%nat by lia.
  rewrite repeat_app, <- app_assoc. reflexivity.
Qed.

Lemma high_delays_other_pin (lvl : level) (v : level) (rest : list event) :
  high_delays lvl (DigitalWrite STATUS v :: rest) = high_delays lvl rest.
Proof. reflexivity. Qed.

Lemma high_delays_low (us : Z) (rest : list event) :
  high_delays LOW (DelayMicroseconds us :: rest) = high_delays LOW rest.
Proof. reflexivity. Qed.

Lemma high_delays_packet (lvl : level) (yaw pitch throttle trim : byte) :
  high_delays lvl (packet_events yaw pitch throttle trim) = repeat 10 473.
Proof.
  destruct (packet_counts yaw pitch throttle trim) as [Hl _].
  unfold packet_events, header_events, footer_events.
  change ([DigitalWrite STATUS HIGH] ++ ?l) with (DigitalWrite STATUS HIGH :: l).
  rewrite high_delays_other_pin.
  rewrite <- app_assoc. rewrite (high_delays_burst lvl 76).
  change ([DelayMicroseconds HEADER_DELAY] ++ ?l) with (DelayMicroseconds HEADER_DELAY :: l).
  rewrite high_delays_low, high_delays_symbols, Hl.
  rewrite (high_delays_burst LOW 11), high_delays_other_pin.
  change (high_delays LOW []) with (@nil Z).
  rewrite app_nil_r, <- !repeat_app.
  change (77 + (12 * 32 + 12))%nat with 473%nat. reflexivity.
Qed.

Lemma level_after_app (pin : Z) (lvl : level) (a b : list event) :
  level_after pin lvl (a ++ b) = level_after pin (level_after pin lvl a) b.
Proof.
  revert lvl. induction a as [|e a IH]; intros lvl; [reflexivity|].
  destruct e as [p v|us|ms|x]; cbn [app level_after]; try apply IH.
  destruct (p =? pin); apply IH.
Qed.

(** X7. During a packet the LED is on for 473 stretches of 10 us (77 for
    the header, 12 for each of the 32 bits, 12 for the footer) and at no
    other time: it is off during every low time of the header and of the
    bits.  The packet leaves the LED and the status pin low. *)
Theorem sendPacket_led_on_in_carrier_only (w : Z) (n : nat)
        (yaw pitch throttle trim : byte) (m : machine) (lvl : level) :
  16 <= w ->
  exists (r : Z) (m' : machine) (sent : list event),
    sendPacket w (77 + n) yaw pitch throttle trim m = Done r m'
    /\ output m' = output m ++ sent
    /\ high_delays lvl sent = repeat 10 473
    /\ level_after LED lvl sent = LOW
    /\ level_after STATUS lvl sent = LOW.
Proof.
  intros Hw.
  destruct (sendPacket_returns w n yaw pitch throttle trim m Hw) as [Hs _].
  destruct (packet_counts yaw pitch throttle trim) as [Hl _].
  eexists. eexists. exists (packet_events yaw pitch throttle trim).
  split; [exact Hs|]. split; [reflexivity|].
  split; [apply high_delays_packet|].
  unfold packet_events, header_events, footer_events.
  split.
  - rewrite !level_after_app. cbn [level_after]. change (STATUS =? LED) with false.
    cbv iota. destruct (level_after LED _ (concat _)); reflexivity.
  - rewrite !level_after_app. cbn [level_after]. change (STATUS =? STATUS) with true.
    reflexivity.
Qed.

Lemma sendPacket_led_on_in_carrier_only_witness :
  16 <= 16 /\
  exists (r : Z) (m' : machine) (sent : list event),
    sendPacket 16 77 xaa x55 xff x00 initial_machine = Done r m'
    /\ output m' = output initial_machine ++ sent
    /\ high_delays HIGH sent = repeat 10 473
    /\ level_after LED HIGH sent = LOW
    /\ level_after STATUS HIGH sent = LOW.
Proof.
  assert (H : 16 <= 16) by lia.
  split; [exact H|].
  exact (sendPacket_led_on_in_carrier_only 16 0 xaa x55 xff x00 initial_machine HIGH H).
Defined.

(** X8. Two commands that differ never give the same signal: if two calls
    of [sendPacket] from the same state leave the same output, their
    commands are equal. *)
Theorem sendPacket_injective (w : Z) (n : nat) (c1 c2 : byte4) (m : machine)
        (r1 r2 : Z) (m1 m2 : machine) :
  16 <= w ->
  sendPacket w (77 + n) (elt0 c1) (elt1 c1) (elt2 c1) (elt3 c1) m = Done r1 m1 ->
  sendPacket w (77 + n) (elt0 c2) (elt1 c2) (elt2 c2) (elt3 c2) m = Done r2 m2 ->
  output m1 = output m2 ->
  c1 = c2.
Proof.
  intros Hw H1 H2 Hout.
  rewrite sendPacket_delay_for in H1, H2 by assumption.
  injection H1 as _ <-. injection H2 as _ <-.
  cbn [output] in Hout. apply app_inv_head in Hout.
  apply (f_equal decode) in Hout. rewrite !decode_packet_events in Hout.
  injection Hout as E0 E1 E2 E3.
  destruct c1, c2. simpl in E0, E1, E2, E3. now subst.
Qed.

Lemma sendPacket_injective_witness :
  16 <= 16
  /\ sendPacket 16 77 x3f x40 x00 x3f initial_machine
     = Done (delay_for 16 (mkByte4 x3f x40 x00 x3f))
            (mkMachine (command initial_machine) (final_statics x3f x40 x00 x3f) []
                       ([] ++ packet_events x3f x40 x00 x3f))
  /\ mkByte4 x3f x40 x00 x3f = mkByte4 x3f x40 x00 x3f.
Proof.
  assert (H : 16 <= 16) by lia.
  assert (Hs : sendPacket 16 77 x3f x40 x00 x3f initial_machine
               = Done (delay_for 16 (mkByte4 x3f x40 x00 x3f))
                      (mkMachine (command initial_machine) (final_statics x3f x40 x00 x3f) []
                                 ([] ++ packet_events x3f x40 x00 x3f)))
    by (vm_compute; reflexivity).
  refine (conj H (conj Hs _)).
  exact (sendPacket_injective 16 0 (mkByte4 x3f x40 x00 x3f) (mkByte4 x3f x40 x00 x3f)
           initial_machine _ _ _ _ H Hs Hs eq_refl).
Defined.

(** ** The loop, pass after pass *)

Lemma loop_iteration_after (w : Z) (n : nat) (m : machine) :
  16 <= w -> loop_iteration w (77 + n) m = Done tt (after_pass w m).
Proof. intros Hw. exact (loop_iteration_spec w n m Hw). Qed.

Lemma loop_passes_after (w : Z) (k n : nat) (m : machine) :
  16 <= w -> loop_passes w k (77 + n) m = Done tt (after_passes w k m).
Proof.
  intros Hw. revert m. induction k as [|k IH]; intros m; [reflexivity|].
  cbn [loop_passes after_passes]. unfold bind.
  rewrite loop_iteration_after by assumption. apply IH.
Qed.

(** With fuel for [k] passes, [loop] makes the first [k] passes and is then
    still running. *)
Lemma loop_as_passes (w : Z) (k fuel : nat) (m : machine) :
  loop w k fuel m
  = match loop_passes w k fuel m with
    | Done _ _ => OutOfFuel
    | OutOfFuel => OutOfFuel
    | Undefined => Undefined
    end.
Proof.
  unfold loop. revert m. induction k as [|k IH]; intros m; [reflexivity|].
  cbn [while loop_passes]. unfold bind.
  destruct (loop_iteration w fuel m) as [u m'| |]; [apply IH|reflexivity..].
Qed.

(** X9. [loop] never returns: whatever the state and the bytes waiting,
    every pass ends (no array is read or written out of its bounds and the
    float of the delay always converts to an [int]; an [int] sum that
    overflows is taken to wrap around), and however many passes are allowed,
    the [while(1)] is still running after them. *)
Theorem loop_never_returns (w : Z) (k n : nat) (m : machine) :
  16 <= w ->
  loop w k (77 + n) m = OutOfFuel
  /\ exists m' : machine, loop_passes w k (77 + n) m = Done tt m'.
Proof.
  intros Hw. rewrite loop_as_passes, loop_passes_after by assumption.
  split; [reflexivity|]. eexists. reflexivity.
Qed.

Lemma loop_never_returns_witness :
  16 <= 16
  /\ loop 16 3 77 initial_machine = OutOfFuel
  /\ exists m' : machine, loop_passes 16 3 77 initial_machine = Done tt m'.
Proof.
  assert (H : 16 <= 16) by lia.
  split; [exact H|].
  exact (loop_never_returns 16 3 0 initial_machine H).
Defined.

Lemma polled_short (m : machine) :
  (length (serial_rx m) < 4)%nat -> polled m = m.
Proof.
  intros Hlen. unfold polled.
  destruct (serial_rx m) as [|y [|p [|t [|tr rest]]]]; try reflexivity.
  simpl in Hlen. lia.
Qed.

Lemma after_passes_idle (w : Z) (k : nat) (m : machine) :
  (length (serial_rx m) < 4)%nat ->
  command (after_passes w k m) = command m
  /\ serial_rx (after_passes w k m) = serial_rx m
  /\ output (after_passes w k m)
     = output m ++ concat (repeat (pass_events w (command m)) k).
Proof.
  revert m. induction k as [|k IH]; intros m Hlen.
  - cbn [after_passes repeat concat]. now rewrite app_nil_r.
  - cbn [after_passes repeat concat].
    assert (Hp : polled m = m) by now apply polled_short.
    destruct (IH (after_pass w m)) as [Hc [Hr Ho]].
    { unfold after_pass. cbn [serial_rx]. now rewrite Hp. }
    rewrite Hc, Hr, Ho. unfold after_pass. cbn [command serial_rx output].
    rewrite Hp. rewrite <- app_assoc. repeat split.
Qed.

(** X10. With fewer than four bytes waiting and none arriving, every pass
    of [loop] sends the packet of the same command again, sleeps the same
    delay and writes the ready byte; the command and the waiting bytes stay
    as they are. *)
Theorem loop_idle_resends (w : Z) (k n : nat) (m : machine) :
  16 <= w -> (length (serial_rx m) < 4)%nat ->
  exists m' : machine,
    loop_passes w k (77 + n) m = Done tt m'
    /\ command m' = command m
    /\ serial_rx m' = serial_rx m
    /\ output m' = output m ++ concat (repeat (pass_events w (command m)) k).
Proof.
  intros Hw Hlen. rewrite loop_passes_after by assumption.
  eexists. split; [reflexivity|]. now apply after_passes_idle.
Qed.

Lemma loop_idle_resends_witness :
  16 <= 16 /\ (length (serial_rx initial_machine) < 4)%nat
  /\ exists m' : machine,
       loop_passes 16 2 77 initial_machine = Done tt m'
       /\ command m' = command initial_machine
       /\ serial_rx m' = serial_rx initial_machine
       /\ output m' = output initial_machine
                      ++ concat (repeat (pass_events 16 (command initial_machine)) 2).
Proof.
  assert (H1 : 16 <= 16) by lia.
  assert (H2 : (length (serial_rx initial_machine) < 4)%nat) by (simpl; lia).
  refine (conj H1 (conj H2 _)).
  exact (loop_idle_resends 16 2 0 initial_machine H1 H2).
Defined.

Lemma last_of_cons (u : byte4) (us : list byte4) (d : byte4) :
  last (u :: us) d = last us u.
Proof.
  revert u d. induction us as [|v us IH]; intros u d; [reflexivity|].
  change (last (u :: v :: us) d) with (last (v :: us) d). now rewrite !IH.
Qed.

Lemma after_passes_updates (w : Z) (us : list byte4) (tail : list byte) (m : machine) :
  serial_rx m = concat (map to_bytes us) ++ tail ->
  command (after_passes w (length us) m) = last us (command m)
  /\ serial_rx (after_passes w (length us) m) = tail
  /\ output (after_passes w (length us) m)
     = output m ++ concat (map (pass_events w) us).
Proof.
  revert m. induction us as [|u us IH]; intros m Hrx.
  - cbn [length after_passes map concat last]. cbn [map concat app] in Hrx.
    rewrite app_nil_r. repeat split. exact Hrx.
  - cbn [length after_passes].
    assert (Hp : polled m = mkMachine u (sp m) (concat (map to_bytes us) ++ tail) (output m)).
    { unfold polled. rewrite Hrx. destruct u. reflexivity. }
    destruct (IH (after_pass w m)) as [Hc [Hr Ho]].
    { unfold after_pass. cbn [serial_rx]. now rewrite Hp. }
    rewrite Hc, Hr, Ho. unfold after_pass. cbn [command serial_rx output].
    rewrite Hp. cbn [command map concat]. rewrite <- app_assoc.
    split; [|split; reflexivity].
    symmetry. apply last_of_cons.
Qed.

(** X11. Updates that wait on the serial port are taken one a pass, in the
    order of their arrival, none skipped and none sent twice: with the
    updates [us] waiting, followed by any bytes [tail], as many passes as
    there are updates send their packets in order, end with the last of
    them as the command and leave [tail] waiting. *)
Theorem loop_takes_updates_in_order (w : Z) (n : nat) (us : list byte4)
        (tail : list byte) (m : machine) :
  16 <= w ->
  serial_rx m = concat (map to_bytes us) ++ tail ->
  exists m' : machine,
    loop_passes w (length us) (77 + n) m = Done tt m'
    /\ command m' = last us (command m)
    /\ serial_rx m' = tail
    /\ output m' = output m ++ concat (map (pass_events w) us).
Proof.
  intros Hw Hrx. rewrite loop_passes_after by assumption.
  eexists. split; [reflexivity|]. now apply after_passes_updates.
Qed.

Lemma loop_takes_updates_in_order_witness :
  16 <= 16
  /\ serial_rx (mkMachine (command initial_machine) (sp initial_machine)
                          [x01; x02; x03; x04; x05; x06; x07; x08; x09] [])
     = concat (map to_bytes [mkByte4 x01 x02 x03 x04; mkByte4 x05 x06 x07 x08]) ++ [x09]
  /\ exists m' : machine,
       loop_passes 16 2 77
         (mkMachine (command initial_machine) (sp initial_machine)
                    [x01; x02; x03; x04; x05; x06; x07; x08; x09] [])
       = Done tt m'
       /\ command m' = mkByte4 x05 x06 x07 x08
       /\ serial_rx m' = [x09]
       /\ output m' = [] ++ concat (map (pass_events 16)
                                        [mkByte4 x01 x02 x03 x04; mkByte4 x05 x06 x07 x08]).
Proof.
  assert (H1 : 16 <= 16) by lia.
  assert (H2 : serial_rx (mkMachine (command initial_machine) (sp initial_machine)
                            [x01; x02; x03; x04; x05; x06; x07; x08; x09] [])
               = concat (map to_bytes [mkByte4 x01 x02 x03 x04; mkByte4 x05 x06 x07 x08])
                   ++ [x09]) by reflexivity.
  refine (conj H1 (conj H2 _)).
  exact (loop_takes_updates_in_order 16 0
           [mkByte4 x01 x02 x03 x04; mkByte4 x05 x06 x07 x08] [x09]
           (mkMachine (command initial_machine) (sp initial_machine)
                      [x01; x02; x03; x04; x05; x06; x07; x08; x09] []) H1 H2).
Defined.

Lemma ready_in_pass (w : Z) (c : byte4) :
  filter is_ready (pass_events w c) = [SerialWrite READY_TO_ACCEPT_ACK]
  /\ filter sleeps_or_writes (pass_events w c)
     = [Delay (delay_for w c); SerialWrite READY_TO_ACCEPT_ACK].
Proof.
  unfold pass_events. rewrite !filter_app.
  rewrite !filter_packet_events by reflexivity. split; reflexivity.
Qed.

Lemma after_passes_ready (w : Z) (k : nat) (m : machine) :
  length (filter is_ready (output (after_passes w k m)))
  = (length (filter is_ready (output m)) + k)%nat
  /\ (length (serial_rx m) <= length (serial_rx (after_passes w k m)) + 4 * k)%nat.
Proof.
  revert m. induction k as [|k IH]; intros m.
  - cbn [after_passes]. lia.
  - cbn [after_passes]. destruct (IH (after_pass w m)) as [H1 H2].
    rewrite H1. unfold after_pass in *. cbn [output serial_rx] in *.
    rewrite filter_app, length_app.
    destruct (ready_in_pass w (command (polled m))) as [Hr _]. rewrite Hr.
    cbn [length]. split; [lia|].
    assert (Hl : (length (serial_rx m) <= length (serial_rx (polled m)) + 4)%nat).
    { unfold polled. destruct (serial_rx m) as [|y [|p [|t [|tr rest]]]]; simpl; lia. }
    lia.
Qed.

(** X12. Every pass of [loop] writes the ready byte 129 to the host exactly
    once and takes at most four bytes from the serial port: after [k]
    passes, [k] more ready bytes have been written and at most [4 * k]
    bytes have been taken, whatever was waiting. *)
Theorem loop_one_ready_byte_per_pass (w : Z) (k n : nat) (m : machine) :
  16 <= w ->
  exists m' : machine,
    loop_passes w k (77 + n) m = Done tt m'
    /\ length (filter is_ready (output m'))
       = (length (filter is_ready (output m)) + k)%nat
    /\ (length (serial_rx m) <= length (serial_rx m') + 4 * k)%nat.
Proof.
  intros Hw. rewrite loop_passes_after by assumption.
  eexists. split; [reflexivity|]. apply after_passes_ready.
Qed.

Lemma loop_one_ready_byte_per_pass_witness :
  16 <= 16
  /\ exists m' : machine,
       loop_passes 16 2 77
         (mkMachine (command initial_machine) (sp initial_machine)
                    [x01; x02; x03; x04; x05] []) = Done tt m'
       /\ length (filter is_ready (output m')) = (0 + 2)%nat
       /\ (5 <= length (serial_rx m') + 4 * 2)%nat.
Proof.
  assert (H : 16 <= 16) by lia.
  split; [exact H|].
  exact (loop_one_ready_byte_per_pass 16 2 0
           (mkMachine (command initial_machine) (sp initial_machine)
                      [x01; x02; x03; x04; x05] []) H).
Defined.
